(** * passwall-server: the authentication handlers of [internal/api/auth.go]

    A shallow embedding of the HTTP handlers [CreateCode], [CreateDeleteCode],
    [VerifyCode], [Signup], [Signin], [RefreshToken], [RecoverDelete] and
    [CheckToken], with the helper [isMailVerified], and the properties of the
    verification-code gate, the response codes and the token checks.

    The handlers are straight-line Go code with early returns.  They touch
    one piece of shared state, the package-level expiring cache [c], and they
    call collaborators that live outside the file: the storage layer, the
    mailer, the token helpers of package [app], and the [json], [jwt], [mux],
    [rand], [strconv] and [strings] libraries.  The cache is modelled as a
    finite map that is threaded through every handler; each collaborator is a
    field of an environment record, so every theorem holds for every
    behaviour of the collaborators. *)

From Stdlib Require Import ZArith String Ascii List Lia.
From stdpp Require Import base option gmap strings.

Local Open Scope string_scope.
Local Open Scope Z_scope.

(** ** Go values seen by the handlers *)

(** Go [error] values.  The handlers compare an error with a sentinel by [==]
    in two places ([http.ErrNoCookie], [jwt.ErrSignatureInvalid]); every other
    error is only tested against [nil] or printed with [Error()]. *)
Inductive error : Type :=
| ErrNoCookie
| ErrSignatureInvalid
| ErrOther (msg : string).

Definition Error (e : error) : string :=
  match e with
  | ErrNoCookie => "http: named cookie not present"
  | ErrSignatureInvalid => "signature is invalid"
  | ErrOther msg => msg
  end.

(** What [jwt.ParseWithClaims] of golang-jwt/jwt/v4 returns when it rejects
    a token: a [*jwt.ValidationError] that holds the cause in its field
    [Inner] (for a bad signature, [jwt.ErrSignatureInvalid]).  As a Go value
    it is a pointer to a struct of its own, so [==] with a sentinel is false
    whatever the cause is; its [Error()] is the text of [Inner]. *)
Definition jwt_ValidationError (inner : error) : error := ErrOther (Error inner).

#[global] Instance error_eq_dec : EqDecision error.
Proof. solve_decision. Defined.

(** A Go call returning [(T, error)]: the handlers look at the value only
    when the error is [nil]. *)
Inductive result (A : Type) : Type :=
| Ok (a : A)
| Err (e : error).
Arguments Ok {A} a.
Arguments Err {A} e.

Definition value_of {A : Type} (r : result A) : option A :=
  match r with
  | Ok a => Some a
  | Err _ => None
  end.

(** Values of type [interface{}]: what the cache stores and what a
    [jwt.MapClaims] maps a claim name to.  A type assertion [x.(string)]
    succeeds on [IString] only. *)
Inductive iface : Type :=
| IString (s : string)
| IInt (n : Z)
| IBool (b : bool)
| INil.

#[global] Instance iface_eq_dec : EqDecision iface.
Proof. solve_decision. Defined.

Definition as_string (x : iface) : option string :=
  match x with
  | IString s => Some s
  | _ => None
  end.

(** ** Records of package [model]

    [AuthEmail], [AuthLoginDTO] and [AuthLoginResponse] are declared in
    [model/auth.go].  [User], [UserSignup], [UserDTO], [Subscription] and the
    DTO conversions are declared in other files of package [model]: the
    records below carry the fields that [auth.go] reads, and the conversions
    are fields of the environment. *)

Record AuthEmail := { Email : string }.

Record AuthLoginDTO := {
  LoginEmail : string;
  MasterPassword : string
}.

Record User := {
  UserID : Z;
  UserUUID : string;
  UserName : string;
  UserEmail : string;
  UserSchema : string
}.

Record UserSignup := {
  SignupName : string;
  SignupEmail : string;
  SignupMasterPassword : string
}.

Record UserDTO := {
  DTOName : string;
  DTOEmail : string;
  DTOMasterPassword : string
}.

Record Subscription := {
  SubscriptionEmail : string;
  SubscriptionStatus : string
}.

Record SubscriptionAuthDTO := {
  AuthDTOStatus : string
}.

Record UserDTOTable := {
  TableName : string;
  TableEmail : string
}.

(** [http.Cookie], as far as the handlers pass it on. *)
Record Cookie := {
  CookieName : string;
  CookieValue : string
}.

(** [model.Response], the generic envelope. *)
Record Response := {
  Code : Z;
  Status : string;
  Message : string
}.

(** [model.AuthLoginResponse]; the two embedded pointers are the results of
    [model.ToUserDTO] and [model.ToSubscriptionAuthDTO]. *)
Record AuthLoginResponse := {
  Type_ : string;
  TransmissionKey : string;
  EmbeddedUserDTO : UserDTO;
  EmbeddedSubscriptionAuthDTO : option SubscriptionAuthDTO
}.

(** ** HTTP status codes of [net/http] *)

Definition StatusOK : Z := 200.
Definition StatusBadRequest : Z := 400.
Definition StatusUnauthorized : Z := 401.
Definition StatusNotFound : Z := 404.
Definition StatusUnprocessableEntity : Z := 422.
Definition StatusInternalServerError : Z := 500.

(** ** Message strings declared at the top of [auth.go] *)

Definition userLoginErr := "User email or master password is wrong.".
Definition userVerifyErr := "Please verify your email first.".
Definition invalidUser := "Invalid user".
Definition invalidToken := "Token is expired or not valid!".
Definition noToken := "Token could not found! ".
Definition tokenCreateErr := "Token could not be created".
Definition signupSuccess := "User created successfully".
Definition verifySuccess := "Email verified successfully".
Definition codeSuccess := "Code created successfully".

(** ** What a handler writes to the [http.ResponseWriter]

    The responder helpers ([RespondWithError], [RespondWithErrors],
    [RespondWithJSON], [RespondWithToken]) are defined elsewhere in package
    [api]; a reply is the helper that the handler called together with its
    arguments.  The first argument of each helper is the HTTP status code. *)

Inductive Payload : Type :=
| PResponse (r : Response)
| PUserDTOTable (u : UserDTOTable).

Inductive Reply : Type :=
| RespondWithError (code : Z) (message : string)
| RespondWithErrors (code : Z) (message : string) (errs : list string)
| RespondWithJSON (code : Z) (payload : Payload)
| RespondWithToken (code : Z) (cookie : Cookie) (payload : AuthLoginResponse)
| WriteHeader (code : Z).

Definition status_code (r : Reply) : Z :=
  match r with
  | RespondWithError code _ => code
  | RespondWithErrors code _ _ => code
  | RespondWithJSON code _ => code
  | RespondWithToken code _ _ => code
  | WriteHeader code => code
  end.

(** The new [passwall_token] cookie, when the reply sets one. *)
Definition issued_cookie (r : Reply) : option Cookie :=
  match r with
  | RespondWithToken _ cookie _ => Some cookie
  | _ => None
  end.

(** ** Calls that leave the handler

    Every call to the store, to the mailer and every write to the cache is
    recorded, in program order. *)
Inductive Event : Type :=
| EvUsersFindByEmail (email : string)
| EvUsersFindByCredentials (email masterPassword : string)
| EvUsersFindByUUID (uuid : string)
| EvUsersDelete (id : Z) (schema : string)
| EvSubscriptionsFindByEmail (email : string)
| EvCreateUser (dto : UserDTO)
| EvSendMail (fromName to subject body : string)
| EvCacheSet (key : string) (value : iface).

(** A call that creates or deletes a user record. *)
Definition is_user_write (ev : Event) : bool :=
  match ev with
  | EvCreateUser _ => true
  | EvUsersDelete _ _ => true
  | _ => false
  end.

Definition is_user_create (ev : Event) : bool :=
  match ev with
  | EvCreateUser _ => true
  | _ => false
  end.

(** ** The state threaded through a handler

    [cache] is the package-level [c] (a [*cache.Cache] of go-cache): a map
    from email to an [interface{}] value.  An entry whose time-to-live has
    run out is reported by [c.Get] as not found, so the map holds the entries
    that are live when the request runs.  [trace] lists the calls made so
    far, oldest first. *)
Record World := {
  cache : gmap string iface;
  trace : list Event
}.

Definition emit_to (ev : Event) (w : World) : World :=
  {| cache := cache w; trace := trace w ++ [ev] |}.

(** ** Tokens

    [app.Claims] is the claims struct that [RefreshToken] hands to the
    parser; [jwt.MapClaims] is a map from claim names to [interface{}]
    values.  A [jwt.Token] holds its claims behind the interface
    [jwt.Claims], so either form can be inside. *)
Record AppClaims := {
  ClaimsUserUUID : string;
  ClaimsExpiresAt : Z
}.

Inductive Claims : Type :=
| MapClaims (m : gmap string iface)
| StructClaims (c : AppClaims).

Record Token := {
  Valid : bool;
  TokenClaims : Claims
}.

(** What [app.PayloadValidator] returns: [nil], a
    [validator.ValidationErrors], or an error of another dynamic type. *)
Inductive validation : Type :=
| ValidationPassed
| ValidationErrors (fields : list string)
| ValidationOther (e : error).

(** ** The inbound request *)
Record Request := {
  Body : string;
  Vars : gmap string string;
  Form : gmap string string;
  Header : gmap string string;
  CookieOf : string -> result Cookie
}.

(** [mux.Vars(r)[name]]: a missing key of a Go map reads as the zero value. *)
Definition mux_Var (r : Request) (name : string) : string :=
  default "" (Vars r !! name).

(** [r.FormValue(name)] and [r.Header.Get(name)] return the empty string
    when the name is absent. *)
Definition FormValue (r : Request) (name : string) : string :=
  default "" (Form r !! name).

Definition Header_Get (r : Request) (name : string) : string :=
  default "" (Header r !! name).

(** ** The storage interface [storage.Store]

    Only the repositories and methods that [auth.go] calls.  Each method
    answers from the database as it is when the request runs; no handler
    queries the store after it has written to it. *)
Record Store := {
  Users_FindByEmail : string -> result User;
  Users_FindByCredentials : string -> string -> result User;
  Users_FindByUUID : string -> result User;
  Users_Delete : Z -> string -> option error;
  Subscriptions_FindByEmail : string -> result Subscription
}.

(** ** Everything else the handlers call

    Library functions, helpers of packages [app], [model] and [api] and the
    three package constants that are declared outside [auth.go]. *)
Record Env := {
  (* constants of package api *)
  Success : string;
  InvalidRequestPayload : string;
  InvalidJSON : string;
  (* json.NewDecoder(r.Body).Decode, at the three target types; Signup
     decodes into a pointer, which the JSON value null leaves nil *)
  json_DecodeAuthEmail : string -> result AuthEmail;
  json_DecodeUserSignup : string -> result (option UserSignup);
  json_DecodeAuthLoginDTO : string -> result AuthLoginDTO;
  (* the raw number that the freshly seeded generator draws *)
  rand_draw : Z;
  (* package app *)
  app_SendMail : string -> string -> string -> string -> option error;
  app_PayloadValidatorSignup : UserSignup -> validation;
  app_PayloadValidatorLogin : AuthLoginDTO -> validation;
  app_CreateUser : Store -> UserDTO -> result User;
  app_CreateToken : User -> result (Cookie * string);
  app_RefreshTokenWithClaims : User -> AppClaims -> result Cookie;
  app_TokenValid : string -> result Token;
  (* package api *)
  GetErrors : list string -> list string;
  (* package model *)
  model_ConvertUserDTO : UserSignup -> UserDTO;
  model_ToUserDTO : User -> UserDTO;
  model_ToSubscriptionAuthDTO : option Subscription -> option SubscriptionAuthDTO;
  model_ToUserDTOTable : User -> UserDTOTable;
  (* jwt.ParseWithClaims with the constant key function; jwtKey *)
  jwtKey : string;
  jwt_ParseWithClaims : string -> string -> result (Token * AppClaims);
  (* viper.GetString *)
  viper_GetString : string -> string;
  (* fmt.Errorf, from the format and its arguments *)
  fmt_Errorf : string -> list iface -> error
}.

(** ** The handler monad

    State passing over [World], with two ways to stop early: a reply was
    written and the handler returned, or a Go run-time panic unwound it. *)
Inductive Outcome (A : Type) : Type :=
| Next (a : A)
| Replied (r : Reply)
| Panicked.
Arguments Next {A} a.
Arguments Replied {A} r.
Arguments Panicked {A}.

Definition Handler (A : Type) : Type := World -> Outcome A * World.

Definition hret {A : Type} (a : A) : Handler A := fun w => (Next a, w).

Definition hbind {A B : Type} (m : Handler A) (k : A -> Handler B) : Handler B :=
  fun w =>
    match m w with
    | (Next a, w') => k a w'
    | (Replied r, w') => (Replied r, w')
    | (Panicked, w') => (Panicked, w')
    end.

Notation "x <- m ;; k" := (hbind m (fun x => k))
  (at level 100, m at next level, right associativity).
Notation "m ;;; k" := (hbind m (fun _ => k))
  (at level 100, right associativity).

(** [RespondWith...(w, ...); return] *)
Definition reply {A : Type} (r : Reply) : Handler A := fun w => (Replied r, w).

Definition panic {A : Type} : Handler A := fun w => (Panicked, w).

(** Record a call and hand back its answer. *)
Definition call {A : Type} (ev : Event) (answer : A) : Handler A :=
  fun w => (Next answer, emit_to ev w).

(** [c.Get(k)] and [c.Set(k, v, cache.DefaultExpiration)]. *)
Definition cGet (k : string) : Handler (option iface) :=
  fun w => (Next (cache w !! k), w).

Definition cSet (k : string) (v : iface) : Handler unit :=
  fun w => (Next tt, {| cache := <[k := v]> (cache w);
                        trace := trace w ++ [EvCacheSet k v] |}).

(** How a finished handler looks from outside.  Every path of every handler
    ends in a reply or a panic, which is why a handler has type
    [Handler Empty_set]. *)
Inductive Result : Type :=
| Responded (r : Reply)
| Panic.

Definition serve (h : Handler Empty_set) (w : World) : Result * World :=
  match h w with
  | (Next e, _) => match e with end
  | (Replied r, w') => (Responded r, w')
  | (Panicked, w') => (Panic, w')
  end.

(** ** Library functions with a definite meaning *)

(** [rand.Intn(n)]: panics for [n <= 0], otherwise reduces the drawn number
    into [[0, n)]. *)
Definition Intn (draw n : Z) : option Z :=
  if n <=? 0 then None else Some (draw mod n).

(** [strconv.Itoa]: the digit loop of [formatBits] in base 10, least
    significant digit first, written in front of what is already there. *)
Definition digit_char (d : Z) : ascii := ascii_of_nat (48 + Z.to_nat d).

Fixpoint formatBits (fuel : nat) (u : Z) (acc : string) : string :=
  match fuel with
  | O => acc
  | S fuel' =>
      let acc' := String (digit_char (u mod 10)) acc in
      if u <? 10 then acc' else formatBits fuel' (u / 10) acc'
  end.

Definition Itoa (i : Z) : string :=
  let fuel := S (Z.to_nat (Z.log2 (Z.abs i))) in
  if i <? 0 then String "-" (formatBits fuel (- i) "")
  else formatBits fuel i "".

(** Reading a decimal numeral back, used to state what [Itoa] produces. *)
Definition is_digit (c : ascii) : bool :=
  ((48 <=? nat_of_ascii c) && (nat_of_ascii c <=? 57))%nat.

Fixpoint all_digits (s : string) : bool :=
  match s with
  | EmptyString => true
  | String c s' => is_digit c && all_digits s'
  end.

Fixpoint decimal_value (acc : Z) (s : string) : Z :=
  match s with
  | EmptyString => acc
  | String c s' => decimal_value (10 * acc + (Z.of_nat (nat_of_ascii c) - 48)) s'
  end.

(** [strings.Split(s, sep)]: cut at every occurrence of [sep], left to
    right; a string without [sep] comes back as the only element.  With an
    empty [sep] Go cuts after every UTF-8 sequence ([explode]); a byte that
    starts no valid sequence is cut off alone.  [utf8_size] is the width
    that [utf8.DecodeRuneInString] reports: the lead byte fixes the length
    and the range of the second byte, the other bytes are continuation
    bytes, and anything else has width one. *)
Definition byte_in (lo hi : nat) (c : ascii) : bool :=
  ((lo <=? nat_of_ascii c) && (nat_of_ascii c <=? hi))%nat.

Definition utf8_size (s : string) : nat :=
  match s with
  | EmptyString => 0
  | String b0 rest =>
      if byte_in 0 127 b0 then 1
      else
        match rest with
        | EmptyString => 1
        | String b1 rest1 =>
            let second_ok :=
              if byte_in 194 223 b0 then byte_in 128 191 b1
              else if byte_in 224 224 b0 then byte_in 160 191 b1
              else if byte_in 237 237 b0 then byte_in 128 159 b1
              else if byte_in 225 239 b0 then byte_in 128 191 b1
              else if byte_in 240 240 b0 then byte_in 144 191 b1
              else if byte_in 241 243 b0 then byte_in 128 191 b1
              else if byte_in 244 244 b0 then byte_in 128 143 b1
              else false in
            if negb second_ok then 1
            else if byte_in 194 223 b0 then 2
            else
              match rest1 with
              | EmptyString => 1
              | String b2 rest2 =>
                  if negb (byte_in 128 191 b2) then 1
                  else if byte_in 224 239 b0 then 3
                  else
                    match rest2 with
                    | EmptyString => 1
                    | String b3 _ => if byte_in 128 191 b3 then 4 else 1
                    end
              end
        end
  end.

Fixpoint explode_from (fuel : nat) (s : string) : list string :=
  match fuel with
  | O => []
  | S fuel' =>
      match s with
      | EmptyString => []
      | String _ _ =>
          let k := utf8_size s in
          substring 0 k s
            :: explode_from fuel' (substring k (String.length s - k) s)
      end
  end.

Definition explode (s : string) : list string :=
  explode_from (String.length s) s.

Fixpoint genSplit (fuel : nat) (s sep : string) : list string :=
  match fuel with
  | O => [s]
  | S fuel' =>
      match String.index 0 sep s with
      | None => [s]
      | Some m =>
          let k := (m + String.length sep)%nat in
          substring 0 m s
            :: genSplit fuel' (substring k (String.length s - k) s) sep
      end
  end.

Definition Split (s sep : string) : list string :=
  if String.eqb sep "" then explode s
  else genSplit (String.length s) s sep.

(** ** The handlers

    Calls to [logger] write to the log only and are left out. *)
Section Handlers.

Variable env : Env.

Definition rand_Intn (n : Z) : Handler Z :=
  match Intn (rand_draw env) n with
  | None => panic
  | Some v => hret v
  end.

Definition SendMail (fromName to subject body : string) : Handler (option error) :=
  call (EvSendMail fromName to subject body)
       (app_SendMail env fromName to subject body).

Definition success_response (message : string) : Reply :=
  RespondWithJSON StatusOK
    (PResponse {| Code := StatusOK; Status := Success env; Message := message |}).

(** [CreateCode], lines 39-84. *)
Definition CreateCode (s : Store) (r : Request) : Handler Empty_set :=
  match json_DecodeAuthEmail env (Body r) with
  | Err _ => reply (RespondWithError StatusBadRequest (InvalidRequestPayload env))
  | Ok signup =>
      found <- call (EvUsersFindByEmail (Email signup))
                    (Users_FindByEmail s (Email signup)) ;;
      match found with
      | Ok _ => reply (RespondWithError StatusBadRequest "User couldn't created!")
      | Err _ =>
          let min := 100000 in
          let max := 999999 in
          n <- rand_Intn (max - min + 1) ;;
          let code := Itoa (n + min) in
          cSet (Email signup) (IString code) ;;;
          let subject := "Passwall Email Verification" in
          let body := "Passwall verification code: " +:+ code in
          sent <- SendMail "Passwall Verification Code" (Email signup) subject body ;;
          match sent with
          | Some _ => reply (RespondWithError StatusBadRequest "Couldn't send email")
          | None => reply (success_response codeSuccess)
          end
      end
  end.

(** [CreateDeleteCode], lines 87-132. *)
Definition CreateDeleteCode (s : Store) (r : Request) : Handler Empty_set :=
  match json_DecodeAuthEmail env (Body r) with
  | Err _ => reply (RespondWithError StatusBadRequest (InvalidRequestPayload env))
  | Ok signup =>
      found <- call (EvUsersFindByEmail (Email signup))
                    (Users_FindByEmail s (Email signup)) ;;
      match found with
      | Err _ => reply (RespondWithError StatusBadRequest "User couldn't be found!")
      | Ok _ =>
          let min := 100000 in
          let max := 999999 in
          n <- rand_Intn (max - min + 1) ;;
          let code := Itoa (n + min) in
          cSet (Email signup) (IString code) ;;;
          let subject := "Passwall User Deletion Verification" in
          let body := "Passwall user deletion code: " +:+ code in
          sent <- SendMail "Passwall user deletion Code" (Email signup) subject body ;;
          match sent with
          | Some _ => reply (RespondWithError StatusBadRequest "Couldn't send email")
          | None => reply (success_response codeSuccess)
          end
      end
  end.

(** [VerifyCode], lines 135-167. *)
Definition VerifyCode (r : Request) : Handler Empty_set :=
  let userCode := mux_Var r "code" in
  let email := FormValue r "email" in
  code <- cGet email ;;
  match code with
  | None => reply (RespondWithError StatusBadRequest "Code couldn't found!")
  | Some code =>
      match as_string code with
      | None => reply (RespondWithError StatusInternalServerError "Server error!")
      | Some confirmationCode =>
          if negb (String.eqb userCode confirmationCode)
          then reply (RespondWithError StatusBadRequest "Code doesn't match!")
          else
            cSet email (IString "verified") ;;;
            reply (success_response verifySuccess)
      end
  end.

(** [isMailVerified], lines 448-467: [None] is the [nil] error. *)
Definition isMailVerified (email : string) : Handler (option error) :=
  cachedEmail <- cGet email ;;
  match cachedEmail with
  | None =>
      hret (Some (fmt_Errorf env "can't find email %q in cache" [IString email]))
  | Some cachedEmail =>
      match as_string cachedEmail with
      | None =>
          hret (Some (fmt_Errorf env "can't convert cached email data %v to string"
                                 [IString ""]))
      | Some verified =>
          if negb (String.eqb verified "verified")
          then hret (Some (fmt_Errorf env
                             "cached email value %s doesn't match for email %s"
                             [IString verified; IString email]))
          else hret None
      end
  end.

(** [notifyAdminEmail], lines 436-446: the mailer's answer is dropped. *)
Definition notifyAdminEmail (user : User) : Handler unit :=
  let subject := "PassWall New User Subscription" in
  let body := "PassWall has new a user. User details:

" in
  let body := body +:+ ("Name: " +:+ UserName user +:+ "
") in
  let body := body +:+ ("Email: " +:+ UserEmail user +:+ "
") in
  _ <- SendMail (viper_GetString env "email.fromName")
                (viper_GetString env "email.fromEmail") subject body ;;
  hret tt.

(** [Signup], lines 170-222.  [userSignup] is a pointer; when the decoder
    leaves it nil, reading [userSignup.Email] at line 182 panics. *)
Definition Signup (s : Store) (r : Request) : Handler Empty_set :=
  match json_DecodeUserSignup env (Body r) with
  | Err _ => reply (RespondWithError StatusBadRequest "Invalid request payload")
  | Ok None => panic
  | Ok (Some userSignup) =>
      verr <- isMailVerified (SignupEmail userSignup) ;;
      match verr with
      | Some _ => reply (RespondWithError StatusUnauthorized "Email is not verified")
      | None =>
          match app_PayloadValidatorSignup env userSignup with
          | ValidationErrors fields =>
              reply (RespondWithErrors StatusBadRequest (InvalidRequestPayload env)
                                       (GetErrors env fields))
          | ValidationOther _ => panic
          | ValidationPassed =>
              let userDTO := model_ConvertUserDTO env userSignup in
              found <- call (EvUsersFindByEmail (DTOEmail userDTO))
                            (Users_FindByEmail s (DTOEmail userDTO)) ;;
              match found with
              | Ok _ =>
                  reply (RespondWithError StatusBadRequest "User couldn't created!")
              | Err _ =>
                  created <- call (EvCreateUser userDTO)
                                  (app_CreateUser env s userDTO) ;;
                  match created with
                  | Err err =>
                      reply (RespondWithError StatusInternalServerError (Error err))
                  | Ok createdUser =>
                      notifyAdminEmail createdUser ;;;
                      reply (success_response signupSuccess)
                  end
              end
          end
      end
  end.

(** [Signin], lines 225-276. *)
Definition Signin (s : Store) (r : Request) : Handler Empty_set :=
  let subscriptionType := "pro" in
  match json_DecodeAuthLoginDTO env (Body r) with
  | Err _ => reply (RespondWithError StatusUnprocessableEntity (InvalidJSON env))
  | Ok loginDTO =>
      match app_PayloadValidatorLogin env loginDTO with
      | ValidationErrors fields =>
          reply (RespondWithErrors StatusBadRequest (InvalidRequestPayload env)
                                   (GetErrors env fields))
      | ValidationOther _ => panic
      | ValidationPassed =>
          found <- call (EvUsersFindByCredentials (LoginEmail loginDTO)
                                                  (MasterPassword loginDTO))
                        (Users_FindByCredentials s (LoginEmail loginDTO)
                                                 (MasterPassword loginDTO)) ;;
          match found with
          | Err _ => reply (RespondWithError StatusUnauthorized userLoginErr)
          | Ok user =>
              sub <- call (EvSubscriptionsFindByEmail (UserEmail user))
                          (Subscriptions_FindByEmail s (UserEmail user)) ;;
              let subscriptionType :=
                match sub with
                | Err _ => "free"
                | Ok _ => subscriptionType
                end in
              let subscription := value_of sub in
              match app_CreateToken env user with
              | Err _ =>
                  reply (RespondWithError StatusInternalServerError tokenCreateErr)
              | Ok (cookieWithToken, transmissionKey) =>
                  let authLoginResponse :=
                    {| Type_ := subscriptionType;
                       TransmissionKey := transmissionKey;
                       EmbeddedUserDTO := model_ToUserDTO env user;
                       EmbeddedSubscriptionAuthDTO :=
                         model_ToSubscriptionAuthDTO env subscription |} in
                  reply (RespondWithToken StatusOK cookieWithToken authLoginResponse)
              end
          end
      end
  end.

(** [RefreshToken], lines 279-360. *)
Definition RefreshToken (s : Store) (r : Request) : Handler Empty_set :=
  match CookieOf r "passwall_token" with
  | Err err =>
      if bool_decide (err = ErrNoCookie)
      then reply (WriteHeader StatusUnauthorized)
      else reply (WriteHeader StatusBadRequest)
  | Ok c =>
      let tknStr := CookieValue c in
      match jwt_ParseWithClaims env tknStr (jwtKey env) with
      | Err err =>
          if bool_decide (err = ErrSignatureInvalid)
          then reply (WriteHeader StatusUnauthorized)
          else reply (WriteHeader StatusBadRequest)
      | Ok (tkn, claims) =>
          if negb (Valid tkn)
          then reply (WriteHeader StatusUnauthorized)
          else
            found <- call (EvUsersFindByUUID (ClaimsUserUUID claims))
                          (Users_FindByUUID s (ClaimsUserUUID claims)) ;;
            match found with
            | Err _ => reply (RespondWithError StatusUnauthorized invalidUser)
            | Ok user =>
                let subscriptionType := "pro" in
                sub <- call (EvSubscriptionsFindByEmail (UserEmail user))
                            (Subscriptions_FindByEmail s (UserEmail user)) ;;
                let subscriptionType :=
                  match sub with
                  | Err _ => "free"
                  | Ok _ => subscriptionType
                  end in
                let subscription := value_of sub in
                match app_RefreshTokenWithClaims env user claims with
                | Err _ =>
                    reply (RespondWithError StatusInternalServerError tokenCreateErr)
                | Ok cookieWithToken =>
                    let authLoginResponse :=
                      {| Type_ := subscriptionType;
                         TransmissionKey := "";
                         EmbeddedUserDTO := model_ToUserDTO env user;
                         EmbeddedSubscriptionAuthDTO :=
                           model_ToSubscriptionAuthDTO env subscription |} in
                    reply (RespondWithToken StatusOK cookieWithToken authLoginResponse)
                end
            end
      end
  end.

(** [RecoverDelete], lines 362-397. *)
Definition RecoverDelete (s : Store) (r : Request) : Handler Empty_set :=
  let email := mux_Var r "email" in
  verr <- isMailVerified email ;;
  match verr with
  | Some _ => reply (RespondWithError StatusUnauthorized "Email is not verified")
  | None =>
      found <- call (EvUsersFindByEmail email) (Users_FindByEmail s email) ;;
      match found with
      | Err err => reply (RespondWithError StatusNotFound (Error err))
      | Ok user =>
          deleted <- call (EvUsersDelete (UserID user) (UserSchema user))
                          (Users_Delete s (UserID user) (UserSchema user)) ;;
          match deleted with
          | Some err => reply (RespondWithError StatusNotFound (Error err))
          | None =>
              reply (RespondWithJSON StatusOK
                       (PResponse {| Code := StatusOK;
                                     Status := "Success";
                                     Message := "User deleted successfully!" |}))
          end
      end
  end.

(** [CheckToken], lines 400-434, in two pieces: reading the token string out
    of the [Authorization] header (lines 402-407), and everything from the
    test [tokenStr == ""] on (lines 409-433).

    The two type assertions of lines 420-421 have the one-value form, which
    panics when the dynamic type is another one.  A key that is missing from
    the map reads as the [nil] interface, which is not a string either. *)
Definition bearer_tokenStr (bearerToken : string) : string :=
  let tokenStr := "" in
  let strArr := Split bearerToken " " in
  if (length strArr =? 2)%nat then nth 1 strArr "" else tokenStr.

Definition CheckToken_from (s : Store) (tokenStr : string) : Handler Empty_set :=
  if String.eqb tokenStr ""
  then reply (RespondWithError StatusUnauthorized noToken)
  else
    match app_TokenValid env tokenStr with
    | Err _ => reply (RespondWithError StatusUnauthorized invalidToken)
    | Ok token =>
        match TokenClaims token with
        | StructClaims _ => panic
        | MapClaims claims =>
            match as_string (default INil (claims !! "user_uuid")) with
            | None => panic
            | Some userUUID =>
                found <- call (EvUsersFindByUUID userUUID)
                              (Users_FindByUUID s userUUID) ;;
                match found with
                | Err _ => reply (RespondWithError StatusUnauthorized invalidUser)
                | Ok user =>
                    reply (RespondWithJSON StatusOK
                             (PUserDTOTable (model_ToUserDTOTable env user)))
                end
            end
        end
    end.

Definition CheckToken (s : Store) (r : Request) : Handler Empty_set :=
  CheckToken_from s (bearer_tokenStr (Header_Get r "Authorization")).

End Handlers.

(** What a handler added to the trace. *)
Definition calls (h : Handler Empty_set) (w : World) : list Event :=
  drop (length (trace w)) (trace (snd (serve h w))).

Definition reply_of (h : Handler Empty_set) (w : World) : Result :=
  fst (serve h w).

(** ** A small concrete installation, to run the handlers on *)
Module Fixture.

Definition alice : User :=
  {| UserID := 7; UserUUID := "u-7"; UserName := "Alice";
     UserEmail := "alice@x.com"; UserSchema := "user7" |}.

Definition find_alice (email : string) : result User :=
  if String.eqb email "alice@x.com" then Ok alice
  else Err (ErrOther "record not found").

(** One registered user and no subscription. *)
Definition store : Store :=
  {| Users_FindByEmail := find_alice;
     Users_FindByCredentials := fun email _ => find_alice email;
     Users_FindByUUID := fun uuid =>
       if String.eqb uuid "u-7" then Ok alice
       else Err (ErrOther "record not found");
     Users_Delete := fun _ _ => None;
     Subscriptions_FindByEmail := fun _ => Err (ErrOther "record not found") |}.

Definition parsed (uuid : string) : Token * AppClaims :=
  ({| Valid := true;
      TokenClaims := StructClaims {| ClaimsUserUUID := uuid; ClaimsExpiresAt := 0 |} |},
   {| ClaimsUserUUID := uuid; ClaimsExpiresAt := 0 |}).

(** The request body stands for the email it carries; the mailer answers
    [mail]; the generator draws [draw]. *)
Definition env (draw : Z) (mail : option error) : Env :=
  {| Success := "Success";
     InvalidRequestPayload := "Invalid request payload";
     InvalidJSON := "Invalid json provided";
     json_DecodeAuthEmail := fun body => Ok {| Email := body |};
     json_DecodeUserSignup := fun body =>
       Ok (Some {| SignupName := "Bob"; SignupEmail := body;
                   SignupMasterPassword := "secret" |});
     json_DecodeAuthLoginDTO := fun body =>
       Ok {| LoginEmail := body; MasterPassword := "secret" |};
     rand_draw := draw;
     app_SendMail := fun _ _ _ _ => mail;
     app_PayloadValidatorSignup := fun _ => ValidationPassed;
     app_PayloadValidatorLogin := fun _ => ValidationPassed;
     app_CreateUser := fun _ dto =>
       Ok {| UserID := 8; UserUUID := "u-8"; UserName := DTOName dto;
             UserEmail := DTOEmail dto; UserSchema := "user8" |};
     app_CreateToken := fun u =>
       Ok ({| CookieName := "passwall_token"; CookieValue := "jwt" |}, "key");
     app_RefreshTokenWithClaims := fun _ _ =>
       Ok {| CookieName := "passwall_token"; CookieValue := "jwt2" |};
     app_TokenValid := fun tokenStr =>
       if String.eqb tokenStr "struct"
       then Ok {| Valid := true;
                  TokenClaims := StructClaims {| ClaimsUserUUID := "u-7";
                                                 ClaimsExpiresAt := 0 |} |}
       else if String.eqb tokenStr "good"
       then Ok {| Valid := true;
                  TokenClaims := MapClaims {[ "user_uuid" := IString "u-7" ]} |}
       else if String.eqb tokenStr "numeric"
       then Ok {| Valid := true;
                  TokenClaims := MapClaims {[ "user_uuid" := IInt 7 ]} |}
       else if String.eqb tokenStr "anonymous"
       then Ok {| Valid := true; TokenClaims := MapClaims {[ "exp" := IInt 0 ]} |}
       else Err (ErrOther "token is malformed");
     GetErrors := fun fields => fields;
     model_ConvertUserDTO := fun u =>
       {| DTOName := SignupName u; DTOEmail := SignupEmail u;
          DTOMasterPassword := SignupMasterPassword u |};
     model_ToUserDTO := fun u =>
       {| DTOName := UserName u; DTOEmail := UserEmail u;
          DTOMasterPassword := "" |};
     model_ToSubscriptionAuthDTO := fun sub =>
       option_map (fun x => {| AuthDTOStatus := SubscriptionStatus x |}) sub;
     model_ToUserDTOTable := fun u =>
       {| TableName := UserName u; TableEmail := UserEmail u |};
     jwtKey := "server-secret";
     jwt_ParseWithClaims := fun tknStr _ =>
       if String.eqb tknStr "jwt" then Ok (parsed "u-7")
       else if String.eqb tknStr "ghost" then Ok (parsed "u-9")
       else if String.eqb tknStr "forged"
       then Err (jwt_ValidationError ErrSignatureInvalid)
       else Err (ErrOther "token is expired");
     viper_GetString := fun _ => "admin";
     fmt_Errorf := fun format _ => ErrOther format |}.

Definition request (body : string) (vars form header : gmap string string) : Request :=
  {| Body := body; Vars := vars; Form := form; Header := header;
     CookieOf := fun _ => Err ErrNoCookie |}.

Definition cookie_request (value : string) : Request :=
  {| Body := ""; Vars := ∅; Form := ∅; Header := ∅;
     CookieOf := fun name =>
       if String.eqb name "passwall_token"
       then Ok {| CookieName := name; CookieValue := value |}
       else Err ErrNoCookie |}.

Definition subscribed (email : string) : result Subscription :=
  Ok {| SubscriptionEmail := email; SubscriptionStatus := "active" |}.

Definition lookup_down (email : string) : result Subscription :=
  Err (ErrOther "connection refused").

Definition bearer_request (authorization : string) : Request :=
  {| Body := ""; Vars := ∅; Form := ∅;
     Header := {[ "Authorization" := authorization ]};
     CookieOf := fun _ => Err ErrNoCookie |}.

Definition world (entries : gmap string iface) : World :=
  {| cache := entries; trace := [] |}.

End Fixture.

(** The same installation with chosen answers of the validator, of
    [app.CreateUser], of the token helpers and of [Users().Delete]. *)
Module Faults.

Definition env (validateSignup validateLogin : validation) (create : result User)
           (token : result (Cookie * string)) (refresh : result Cookie) : Env :=
  let base := Fixture.env 5 None in
  {| Success := Success base;
     InvalidRequestPayload := InvalidRequestPayload base;
     InvalidJSON := InvalidJSON base;
     json_DecodeAuthEmail := json_DecodeAuthEmail base;
     json_DecodeUserSignup := fun body =>
       if String.eqb body "null" then Ok None
       else if String.eqb body "{" then Err (ErrOther "unexpected EOF")
       else json_DecodeUserSignup base body;
     json_DecodeAuthLoginDTO := fun body =>
       if String.eqb body "{" then Err (ErrOther "unexpected EOF")
       else json_DecodeAuthLoginDTO base body;
     rand_draw := rand_draw base;
     app_SendMail := app_SendMail base;
     app_PayloadValidatorSignup := fun _ => validateSignup;
     app_PayloadValidatorLogin := fun _ => validateLogin;
     app_CreateUser := fun _ _ => create;
     app_CreateToken := fun _ => token;
     app_RefreshTokenWithClaims := fun _ _ => refresh;
     app_TokenValid := app_TokenValid base;
     GetErrors := GetErrors base;
     model_ConvertUserDTO := model_ConvertUserDTO base;
     model_ToUserDTO := model_ToUserDTO base;
     model_ToSubscriptionAuthDTO := model_ToSubscriptionAuthDTO base;
     model_ToUserDTOTable := model_ToUserDTOTable base;
     jwtKey := jwtKey base;
     jwt_ParseWithClaims := jwt_ParseWithClaims base;
     viper_GetString := viper_GetString base;
     fmt_Errorf := fmt_Errorf base |}.

Definition store (delete : option error) : Store :=
  {| Users_FindByEmail := Users_FindByEmail Fixture.store;
     Users_FindByCredentials := Users_FindByCredentials Fixture.store;
     Users_FindByUUID := Users_FindByUUID Fixture.store;
     Users_Delete := fun _ _ => delete;
     Subscriptions_FindByEmail := Subscriptions_FindByEmail Fixture.store |}.

(** A store without accounts, and one that has an account for every email. *)
Definition nobody : Store :=
  {| Users_FindByEmail := fun _ => Err (ErrOther "record not found");
     Users_FindByCredentials := fun _ _ => Err (ErrOther "record not found");
     Users_FindByUUID := fun _ => Err (ErrOther "record not found");
     Users_Delete := fun _ _ => None;
     Subscriptions_FindByEmail := fun _ => Err (ErrOther "record not found") |}.

Definition account (email : string) : User :=
  {| UserID := 9; UserUUID := "u-9"; UserName := "Someone";
     UserEmail := email; UserSchema := "user9" |}.

Definition everybody : Store :=
  {| Users_FindByEmail := fun email => Ok (account email);
     Users_FindByCredentials := fun email _ => Ok (account email);
     Users_FindByUUID := fun _ => Ok (account "someone@x.com");
     Users_Delete := fun _ _ => None;
     Subscriptions_FindByEmail := fun _ => Err (ErrOther "record not found") |}.

Definition bob : UserSignup :=
  {| SignupName := "Bob"; SignupEmail := "bob@x.com"; SignupMasterPassword := "secret" |}.

Definition cookie : Cookie := {| CookieName := "passwall_token"; CookieValue := "jwt" |}.

End Faults.

(** ** Vocabulary of the properties *)

(** The cache holds the marker [verified] for [email]. *)
Definition verified_in (w : World) (email : string) : Prop :=
  cache w !! email = Some (IString "verified").

#[global] Instance verified_in_dec (w : World) (email : string) :
  Decision (verified_in w email).
Proof. unfold verified_in. apply _. Defined.

(** A handler made a call that creates or deletes a user record. *)
Definition writes_user (h : Handler Empty_set) (w : World) : Prop :=
  Exists (fun ev => is_user_write ev = true) (calls h w).

Definition creates_user (h : Handler Empty_set) (w : World) : Prop :=
  Exists (fun ev => is_user_create ev = true) (calls h w).

(** The same store with another answer to the subscription lookup. *)
Definition with_subscriptions (s : Store) (f : string -> result Subscription) : Store :=
  {| Users_FindByEmail := Users_FindByEmail s;
     Users_FindByCredentials := Users_FindByCredentials s;
     Users_FindByUUID := Users_FindByUUID s;
     Users_Delete := Users_Delete s;
     Subscriptions_FindByEmail := f |}.

(** The tier that goes with an answer of the subscription lookup. *)
Definition tier_of (sub : result Subscription) : string :=
  match sub with
  | Ok _ => "pro"
  | Err _ => "free"
  end.

(** The HTTP status of a finished request; a panic writes none. *)
Definition status_of (res : Result) : option Z :=
  match res with
  | Responded r => Some (status_code r)
  | Panic => None
  end.

(** A cache value that is a verification code: the decimal numeral of a
    number between 100000 and 999999, six digit characters long. *)
Definition six_digit_code (v : iface) : Prop :=
  exists (code : string) (n : Z),
    v = IString code /\ code = Itoa n /\ 100000 <= n <= 999999
    /\ String.length code = 6%nat /\ all_digits code = true
    /\ decimal_value 0 code = n.


(** The code that a code-request handler generates from the draw of the
    environment, and the two mails that carry it. *)
Definition fresh_code (env : Env) : string :=
  Itoa (rand_draw env mod (999999 - 100000 + 1) + 100000).

Definition code_mail (env : Env) (to : string) : Event :=
  EvSendMail "Passwall Verification Code" to "Passwall Email Verification"
             ("Passwall verification code: " +:+ fresh_code env).

Definition delete_code_mail (env : Env) (to : string) : Event :=
  EvSendMail "Passwall user deletion Code" to "Passwall User Deletion Verification"
             ("Passwall user deletion code: " +:+ fresh_code env).

(** What the mailer answers to a mail: [Some] error when the dispatch fails. *)
Definition mail_answer (env : Env) (ev : Event) : option error :=
  match ev with
  | EvSendMail fromName to subject body => app_SendMail env fromName to subject body
  | _ => None
  end.

(** The handler answers through [RespondWithError] with this status and text. *)
Definition answers (h : Handler Empty_set) (w : World) (code : Z) (message : string) : Prop :=
  reply_of h w = Responded (RespondWithError code message).

(** Status 400 or 404, and the 5xx statuses. *)
Definition bad_request_or_not_found (code : Z) : Prop :=
  code = StatusBadRequest \/ code = StatusNotFound.

Definition server_error (code : Z) : Prop := 500 <= code <= 599.

(** How often the character [c] occurs in [s]. *)
Fixpoint count_byte (c : ascii) (s : string) : nat :=
  match s with
  | EmptyString => 0
  | String b s' => ((if Ascii.eqb c b then 1 else 0) + count_byte c s')%nat
  end.

(** The claims of a token are a map with a string under [user_uuid]. *)
Definition has_user_uuid (token : Token) : Prop :=
  exists (m : gmap string iface) (uuid : string),
    TokenClaims token = MapClaims m /\ m !! "user_uuid" = Some (IString uuid).

(** The world after a request, and after a list of requests served one
    after the other. *)
Definition after (h : Handler Empty_set) (w : World) : World := snd (serve h w).

Fixpoint after_all (hs : list (Handler Empty_set)) (w : World) : World :=
  match hs with
  | [] => w
  | h :: hs' => after_all hs' (after h w)
  end.

(** Kinds of calls. *)
Definition is_user_delete (ev : Event) : bool :=
  match ev with
  | EvUsersDelete _ _ => true
  | _ => false
  end.

Definition is_mail (ev : Event) : bool :=
  match ev with
  | EvSendMail _ _ _ _ => true
  | _ => false
  end.

Definition is_cache_write (ev : Event) : bool :=
  match ev with
  | EvCacheSet _ _ => true
  | _ => false
  end.

(** No call of the request satisfies [kind]. *)
Definition makes_no (kind : Event -> bool) (h : Handler Empty_set) (w : World) : Prop :=
  Forall (fun ev => kind ev = false) (calls h w).

(** The request ended with HTTP status 200. *)
Definition succeeds (h : Handler Empty_set) (w : World) : Prop :=
  status_of (reply_of h w) = Some StatusOK.

(** The request for a user's own record in [VerifyCode]: email in the form,
    code in the route. *)
Definition submits (r : Request) (email code : string) : Prop :=
  FormValue r "email" = email /\ mux_Var r "code" = code.

(** A code request that got past the account check: [CreateCode] for an
    email without account or [CreateDeleteCode] for an email with one, taking
    the world from [w] to [w']. *)
Definition issues_code (env : Env) (s : Store) (r : Request) (w : World)
           (email : string) (w' : World) : Prop :=
  exists signup,
    json_DecodeAuthEmail env (Body r) = Ok signup
    /\ Email signup = email
    /\ (((exists err, Users_FindByEmail s email = Err err)
         /\ w' = after (CreateCode env s r) w)
        \/ ((exists user, Users_FindByEmail s email = Ok user)
            /\ w' = after (CreateDeleteCode env s r) w)).

(** Unfolding the monad: the tactic that runs a handler symbolically. *)
Arguments Itoa : simpl never.
Arguments Intn : simpl never.
Arguments String.eqb : simpl never.

Ltac run :=
  unfold serve, hbind, hret, reply, panic, call, cGet, cSet, emit_to, SendMail;
  cbn [fst snd cache trace].

(** * Properties *)

(** ** Decimal numerals *)
Section Decimal.

Lemma nat_of_digit_char (d : Z) :
  0 <= d <= 9 -> nat_of_ascii (digit_char d) = (48 + Z.to_nat d)%nat.
Proof.
  intros Hd. unfold digit_char.
  apply nat_ascii_embedding. lia.
Qed.

Lemma is_digit_digit_char (d : Z) : 0 <= d <= 9 -> is_digit (digit_char d) = true.
Proof.
  intros Hd. unfold is_digit. rewrite nat_of_digit_char by exact Hd.
  apply andb_true_intro; split; apply Nat.leb_le; lia.
Qed.

Lemma formatBits_all_digits (fuel : nat) :
  forall u acc, 0 <= u -> all_digits acc = true ->
                all_digits (formatBits fuel u acc) = true.
Proof.
  induction fuel as [|fuel IH]; intros u acc Hu Hacc; cbn [formatBits].
  - exact Hacc.
  - assert (Hd : all_digits (String (digit_char (u mod 10)) acc) = true).
    { cbn [all_digits]. rewrite is_digit_digit_char, Hacc; [reflexivity|].
      pose proof (Z.mod_pos_bound u 10). lia. }
    destruct (u <? 10); [exact Hd|].
    apply IH; [|exact Hd]. apply Z.div_pos; lia.
Qed.

(** A number with [k + 1] decimal digits comes out as [k + 1] characters in
    front of [acc], and reads back as itself. *)
Lemma formatBits_digits (k : nat) :
  forall fuel u acc x,
    (k < fuel)%nat -> 0 <= u < 10 ^ Z.of_nat (S k) ->
    (k = 0%nat \/ 10 ^ Z.of_nat k <= u) ->
    String.length (formatBits fuel u acc) = (S k + String.length acc)%nat
    /\ decimal_value x (formatBits fuel u acc)
       = decimal_value (x * 10 ^ Z.of_nat (S k) + u) acc.
Proof.
  induction k as [|k IH]; intros fuel u acc x Hfuel Hu Hlow.
  - destruct fuel as [|fuel]; [lia|]. cbn [formatBits].
    change (10 ^ Z.of_nat 1) with 10 in *.
    destruct (Z.ltb_spec u 10) as [_|Hge]; [|lia].
    split; [reflexivity|]. cbn [decimal_value].
    rewrite nat_of_digit_char by (pose proof (Z.mod_pos_bound u 10); lia).
    rewrite Z.mod_small by lia.
    f_equal. lia.
  - destruct fuel as [|fuel]; [lia|].
    destruct Hlow as [Hk|Hlow]; [discriminate|].
    assert (Hpow : 10 ^ Z.of_nat (S k) = 10 * 10 ^ Z.of_nat k).
    { rewrite Nat2Z.inj_succ, Z.pow_succ_r by lia. reflexivity. }
    assert (Hpow' : 10 ^ Z.of_nat (S (S k)) = 10 * 10 ^ Z.of_nat (S k)).
    { rewrite (Nat2Z.inj_succ (S k)), Z.pow_succ_r by lia. reflexivity. }
    assert (Hpos : 0 < 10 ^ Z.of_nat k) by (apply Z.pow_pos_nonneg; lia).
    cbn [formatBits].
    destruct (Z.ltb_spec u 10) as [Hlt|_]; [lia|].
    pose proof (Z.div_mod u 10 ltac:(lia)) as Hdm.
    pose proof (Z.mod_pos_bound u 10 ltac:(lia)) as Hmod.
    destruct (IH fuel (u / 10) (String (digit_char (u mod 10)) acc) x) as [Hlen Hval].
    + lia.
    + split; [apply Z.div_pos; lia|].
      apply Z.div_lt_upper_bound; lia.
    + right. apply Z.div_le_lower_bound; lia.
    + split.
      * rewrite Hlen. cbn [String.length]. lia.
      * rewrite Hval. cbn [decimal_value].
        rewrite nat_of_digit_char by lia.
        f_equal. rewrite Hpow'. lia.
Qed.

(** [strconv.Itoa] on the range of the verification codes. *)
Lemma Itoa_six_digits (n : Z) :
  100000 <= n <= 999999 ->
  String.length (Itoa n) = 6%nat
  /\ all_digits (Itoa n) = true
  /\ decimal_value 0 (Itoa n) = n.
Proof.
  intros Hn. unfold Itoa.
  destruct (Z.ltb_spec n 0) as [Hneg|_]; [lia|].
  assert (Hlog : 16 <= Z.log2 (Z.abs n)).
  { change 16 with (Z.log2 65536). apply Z.log2_le_mono. lia. }
  destruct (formatBits_digits 5 (S (Z.to_nat (Z.log2 (Z.abs n)))) n "" 0)
    as [Hlen Hval].
  - lia.
  - change (10 ^ Z.of_nat 6) with 1000000. lia.
  - right. change (10 ^ Z.of_nat 5) with 100000. lia.
  - split; [exact Hlen|]. split.
    + apply formatBits_all_digits; [lia|reflexivity].
    + rewrite Hval. cbn [decimal_value]. change (10 ^ Z.of_nat 6) with 1000000. lia.
Qed.

End Decimal.

(** ** Running a handler *)

Lemma calls_nothing (h : Handler Empty_set) (w : World) (res : Result) :
  serve h w = (res, w) -> calls h w = [].
Proof.
  intros H. unfold calls. rewrite H. cbn [snd]. apply drop_all.
Qed.

Lemma calls_added (h : Handler Empty_set) (w : World) (res : Result)
      (c : gmap string iface) (added : list Event) :
  serve h w = (res, {| cache := c; trace := trace w ++ added |}) ->
  calls h w = added.
Proof.
  intros H. unfold calls. rewrite H. cbn [snd trace]. apply drop_app_length.
Qed.

Lemma isMailVerified_spec (env : Env) (email : string) (w : World) :
  (verified_in w email /\ isMailVerified env email w = (Next None, w))
  \/ (~ verified_in w email
      /\ exists err, isMailVerified env email w = (Next (Some err), w)).
Proof.
  unfold verified_in, isMailVerified. run.
  destruct (cache w !! email) as [[v| | |]|] eqn:Hget; cbn [as_string];
    try (right; split; [discriminate|eexists; reflexivity]).
  destruct (String.eqb_spec v "verified") as [->|Hne]; cbn [negb].
  - left. split; reflexivity.
  - right. split; [congruence|eexists; reflexivity].
Qed.

(** ** The verification gate *)

(** C1.  Signup and account deletion write to the user store only for an
    email whose cache entry is exactly [verified].  With the entry absent or
    holding anything else, the handler answers 401 "Email is not verified"
    and leaves the world as it was: no call to the store was made, neither a
    create nor a delete.  For Signup the email is the one of the decoded
    payload; for RecoverDelete it is the route variable [email]. *)
Theorem verification_gate (env : Env) (s : Store) (r : Request) (w : World) :
  (forall userSignup,
      json_DecodeUserSignup env (Body r) = Ok (Some userSignup) ->
      (~ verified_in w (SignupEmail userSignup) ->
       serve (Signup env s r) w
       = (Responded (RespondWithError StatusUnauthorized "Email is not verified"), w))
      /\ (writes_user (Signup env s r) w ->
          verified_in w (SignupEmail userSignup)))
  /\ (~ verified_in w (mux_Var r "email") ->
      serve (RecoverDelete env s r) w
      = (Responded (RespondWithError StatusUnauthorized "Email is not verified"), w))
  /\ (writes_user (RecoverDelete env s r) w ->
      verified_in w (mux_Var r "email")).
Proof.
  assert (Hsignup : forall userSignup,
             json_DecodeUserSignup env (Body r) = Ok (Some userSignup) ->
             ~ verified_in w (SignupEmail userSignup) ->
             serve (Signup env s r) w
             = (Responded (RespondWithError StatusUnauthorized "Email is not verified"), w)).
  { intros u Hdec Hnot. unfold Signup. rewrite Hdec. run.
    destruct (isMailVerified_spec env (SignupEmail u) w) as [[Hv _]|[_ [err ->]]];
      [contradiction|reflexivity]. }
  assert (Hdelete : ~ verified_in w (mux_Var r "email") ->
             serve (RecoverDelete env s r) w
             = (Responded (RespondWithError StatusUnauthorized "Email is not verified"), w)).
  { intros Hnot. unfold RecoverDelete. run.
    destruct (isMailVerified_spec env (mux_Var r "email") w) as [[Hv _]|[_ [err ->]]];
      [contradiction|reflexivity]. }
  split; [|split].
  - intros u Hdec. split; [apply Hsignup; exact Hdec|].
    intros Hwrites.
    destruct (decide (verified_in w (SignupEmail u))) as [Hv|Hnot]; [exact Hv|].
    unfold writes_user in Hwrites.
    rewrite (calls_nothing _ _ _ (Hsignup u Hdec Hnot)) in Hwrites.
    inversion Hwrites.
  - exact Hdelete.
  - intros Hwrites.
    destruct (decide (verified_in w (mux_Var r "email"))) as [Hv|Hnot]; [exact Hv|].
    unfold writes_user in Hwrites.
    rewrite (calls_nothing _ _ _ (Hdelete Hnot)) in Hwrites.
    inversion Hwrites.
Qed.

Lemma verification_gate_witness :
  serve (Signup (Fixture.env 5 None) Fixture.store
                (Fixture.request "bob@x.com" ∅ ∅ ∅)) (Fixture.world ∅)
  = (Responded (RespondWithError StatusUnauthorized "Email is not verified"),
     Fixture.world ∅)
  /\ verified_in (Fixture.world {[ "bob@x.com" := IString "verified" ]}) "bob@x.com"
  /\ verified_in (Fixture.world {[ "alice@x.com" := IString "verified" ]}) "alice@x.com".
Proof.
  split; [|split].
  - apply (proj1 (verification_gate (Fixture.env 5 None) Fixture.store
                    (Fixture.request "bob@x.com" ∅ ∅ ∅) (Fixture.world ∅))
             {| SignupName := "Bob"; SignupEmail := "bob@x.com";
                SignupMasterPassword := "secret" |}).
    + reflexivity.
    + vm_compute. discriminate.
  - apply (proj1 (verification_gate (Fixture.env 5 None) Fixture.store
                    (Fixture.request "bob@x.com" ∅ ∅ ∅)
                    (Fixture.world {[ "bob@x.com" := IString "verified" ]}))
             {| SignupName := "Bob"; SignupEmail := "bob@x.com";
                SignupMasterPassword := "secret" |}).
    + reflexivity.
    + vm_compute. apply Exists_cons_tl, Exists_cons_hd. reflexivity.
  - refine (proj2 (proj2 (verification_gate (Fixture.env 5 None) Fixture.store
                    (Fixture.request "" {[ "email" := "alice@x.com" ]} ∅ ∅)
                    (Fixture.world {[ "alice@x.com" := IString "verified" ]}))) _).
    vm_compute. apply Exists_cons_tl, Exists_cons_hd. reflexivity.
Defined.

(** ** Code verification *)

(** C2.  [VerifyCode] on the email of the form and the code of the route:
    without a cache entry for the email it answers 400 "Code couldn't found!";
    with a cached string that differs from the submitted code it answers
    400 "Code doesn't match!" and the cache (the whole world) is unchanged;
    with a cached string equal to the submitted code it overwrites the entry
    of that email with [verified], touches no other entry, and answers with
    the verify-success message. *)
Theorem VerifyCode_spec (env : Env) (r : Request) (w : World) :
  let email := FormValue r "email" in
  let userCode := mux_Var r "code" in
  (cache w !! email = None ->
   serve (VerifyCode env r) w
   = (Responded (RespondWithError StatusBadRequest "Code couldn't found!"), w))
  /\ (forall cached,
         cache w !! email = Some (IString cached) -> userCode <> cached ->
         serve (VerifyCode env r) w
         = (Responded (RespondWithError StatusBadRequest "Code doesn't match!"), w))
  /\ (forall cached,
         cache w !! email = Some (IString cached) -> userCode = cached ->
         serve (VerifyCode env r) w
         = (Responded (success_response env verifySuccess),
            {| cache := <[email := IString "verified"]> (cache w);
               trace := trace w ++ [EvCacheSet email (IString "verified")] |})).
Proof.
  intros email userCode. unfold VerifyCode. fold email userCode. run.
  split; [|split].
  - intros ->. reflexivity.
  - intros cached -> Hne. cbn [as_string].
    destruct (String.eqb_spec userCode cached) as [Heq|_]; [contradiction|].
    reflexivity.
  - intros cached -> Heq. cbn [as_string].
    destruct (String.eqb_spec userCode cached) as [_|Hne]; [|contradiction].
    reflexivity.
Qed.

Lemma VerifyCode_spec_witness :
  serve (VerifyCode (Fixture.env 5 None)
           (Fixture.request "" {[ "code" := "000000" ]} {[ "email" := "a@x.com" ]} ∅))
        (Fixture.world ∅)
  = (Responded (RespondWithError StatusBadRequest "Code couldn't found!"),
     Fixture.world ∅)
  /\ serve (VerifyCode (Fixture.env 5 None)
           (Fixture.request "" {[ "code" := "000000" ]} {[ "email" := "a@x.com" ]} ∅))
        (Fixture.world {[ "a@x.com" := IString "123456" ]})
     = (Responded (RespondWithError StatusBadRequest "Code doesn't match!"),
        Fixture.world {[ "a@x.com" := IString "123456" ]})
  /\ cache (snd (serve (VerifyCode (Fixture.env 5 None)
           (Fixture.request "" {[ "code" := "123456" ]} {[ "email" := "a@x.com" ]} ∅))
        (Fixture.world {[ "a@x.com" := IString "123456" ]}))) !! "a@x.com"
     = Some (IString "verified").
Proof.
  split; [|split].
  - apply (proj1 (VerifyCode_spec (Fixture.env 5 None)
             (Fixture.request "" {[ "code" := "000000" ]} {[ "email" := "a@x.com" ]} ∅)
             (Fixture.world ∅))).
    reflexivity.
  - apply (proj1 (proj2 (VerifyCode_spec (Fixture.env 5 None)
             (Fixture.request "" {[ "code" := "000000" ]} {[ "email" := "a@x.com" ]} ∅)
             (Fixture.world {[ "a@x.com" := IString "123456" ]}))) "123456").
    + reflexivity.
    + vm_compute. discriminate.
  - rewrite (proj2 (proj2 (VerifyCode_spec (Fixture.env 5 None)
             (Fixture.request "" {[ "code" := "123456" ]} {[ "email" := "a@x.com" ]} ∅)
             (Fixture.world {[ "a@x.com" := IString "123456" ]}))) "123456");
      reflexivity.
Defined.

(** ** Token refresh *)

(** C3 (a defect of the code).  A token with a bad signature is answered
    with 400, not with 401.  [jwt.ParseWithClaims] reports a rejected token
    as a [*jwt.ValidationError], with [jwt.ErrSignatureInvalid] in its field
    [Inner] when the signature is bad.  Line 314 compares that value with
    the sentinel by [==], which is false for every [*jwt.ValidationError],
    so the branch that logs "invalid token signature" and answers 401 is
    passed over and the handler answers 400 at line 319, as it does for an
    expired or malformed token.  Nothing else happens: the world is
    unchanged. *)
Theorem RefreshToken_bad_signature (env : Env) (s : Store) (r : Request) (w : World)
        (c : Cookie) (inner : error) :
  CookieOf r "passwall_token" = Ok c ->
  jwt_ParseWithClaims env (CookieValue c) (jwtKey env)
  = Err (jwt_ValidationError inner) ->
  serve (RefreshToken env s r) w = (Responded (WriteHeader StatusBadRequest), w)
  /\ status_of (reply_of (RefreshToken env s r) w) <> Some StatusUnauthorized.
Proof.
  intros Hcookie Hparse.
  assert (Hserve : serve (RefreshToken env s r) w
                   = (Responded (WriteHeader StatusBadRequest), w)).
  { unfold RefreshToken. rewrite Hcookie, Hparse.
    rewrite bool_decide_eq_false_2 by discriminate. reflexivity. }
  split; [exact Hserve|].
  unfold reply_of. rewrite Hserve. cbn [fst status_of status_code]. discriminate.
Qed.

Lemma RefreshToken_bad_signature_witness :
  jwt_ParseWithClaims (Fixture.env 5 None) "forged" (jwtKey (Fixture.env 5 None))
  = Err (jwt_ValidationError ErrSignatureInvalid)
  /\ serve (RefreshToken (Fixture.env 5 None) Fixture.store
              (Fixture.cookie_request "forged")) (Fixture.world ∅)
     = (Responded (WriteHeader 400), Fixture.world ∅)
  /\ status_of (reply_of (RefreshToken (Fixture.env 5 None) Fixture.store
                            (Fixture.cookie_request "forged")) (Fixture.world ∅))
     <> Some 401.
Proof.
  split; [reflexivity|].
  apply (RefreshToken_bad_signature (Fixture.env 5 None) Fixture.store
           (Fixture.cookie_request "forged") (Fixture.world ∅)
           {| CookieName := "passwall_token"; CookieValue := "forged" |}
           ErrSignatureInvalid);
    reflexivity.
Defined.

(** X24.  The other failure answers of [RefreshToken].  Without the cookie
    [passwall_token] the answer is a bare 401.  With the cookie, every parse
    error that is not the very value [jwt.ErrSignatureInvalid] (an expired
    token, a malformed one) is answered with a bare 400, and a parsed, valid
    token whose user UUID the store does not know with 401 "Invalid user".
    The first two touch nothing.  A reply that sets a new cookie implies that
    the cookie was present, the token parsed and was valid, the user was
    found and the cookie is the one [app.RefreshTokenWithClaims] made. *)
Theorem RefreshToken_other_failures (env : Env) (s : Store) (r : Request) (w : World) :
  (CookieOf r "passwall_token" = Err ErrNoCookie ->
   serve (RefreshToken env s r) w = (Responded (WriteHeader StatusUnauthorized), w))
  /\ (forall c,
         CookieOf r "passwall_token" = Ok c ->
         (forall err,
             jwt_ParseWithClaims env (CookieValue c) (jwtKey env) = Err err ->
             err <> ErrSignatureInvalid ->
             serve (RefreshToken env s r) w
             = (Responded (WriteHeader StatusBadRequest), w))
         /\ (forall tkn claims err,
                jwt_ParseWithClaims env (CookieValue c) (jwtKey env) = Ok (tkn, claims) ->
                Valid tkn = true ->
                Users_FindByUUID s (ClaimsUserUUID claims) = Err err ->
                reply_of (RefreshToken env s r) w
                = Responded (RespondWithError StatusUnauthorized invalidUser)))
  /\ (forall rep cookie,
         reply_of (RefreshToken env s r) w = Responded rep ->
         issued_cookie rep = Some cookie ->
         exists c tkn claims user,
           CookieOf r "passwall_token" = Ok c
           /\ jwt_ParseWithClaims env (CookieValue c) (jwtKey env) = Ok (tkn, claims)
           /\ Valid tkn = true
           /\ Users_FindByUUID s (ClaimsUserUUID claims) = Ok user
           /\ app_RefreshTokenWithClaims env user claims = Ok cookie).
Proof.
  unfold reply_of, RefreshToken. split; [|split].
  - intros ->. reflexivity.
  - intros c ->. split.
    + intros err -> Hne. rewrite bool_decide_eq_false_2 by exact Hne. reflexivity.
    + intros tkn claims err -> -> Hfind. run. rewrite Hfind. reflexivity.
  - intros rep cookie.
    destruct (CookieOf r "passwall_token") as [c|e] eqn:Hcookie.
    2: { destruct (bool_decide (e = ErrNoCookie)); run; cbn [fst];
         intros [= <-]; discriminate. }
    destruct (jwt_ParseWithClaims env (CookieValue c) (jwtKey env))
      as [[tkn claims]|e] eqn:Hparse.
    2: { destruct (bool_decide (e = ErrSignatureInvalid)); run; cbn [fst];
         intros [= <-]; discriminate. }
    destruct (Valid tkn) eqn:Hvalid; cbn [negb].
    2: { run; cbn [fst]; intros [= <-]; discriminate. }
    run.
    destruct (Users_FindByUUID s (ClaimsUserUUID claims)) as [user|e] eqn:Hfind.
    2: { cbn [fst]; intros [= <-]; discriminate. }
    destruct (app_RefreshTokenWithClaims env user claims) as [ck|e] eqn:Hrefresh.
    2: { cbn [fst]; intros [= <-]; discriminate. }
    cbn [fst]. intros [= <-]. cbn [issued_cookie]. intros [= <-].
    exists c, tkn, claims, user. repeat split; first [reflexivity|assumption].
Qed.

Lemma RefreshToken_other_failures_witness :
  serve (RefreshToken (Fixture.env 5 None) Fixture.store (Fixture.request "" ∅ ∅ ∅))
        (Fixture.world ∅)
  = (Responded (WriteHeader StatusUnauthorized), Fixture.world ∅)
  /\ serve (RefreshToken (Fixture.env 5 None) Fixture.store
              (Fixture.cookie_request "stale")) (Fixture.world ∅)
     = (Responded (WriteHeader StatusBadRequest), Fixture.world ∅)
  /\ reply_of (RefreshToken (Fixture.env 5 None) Fixture.store
                 (Fixture.cookie_request "ghost")) (Fixture.world ∅)
     = Responded (RespondWithError StatusUnauthorized invalidUser)
  /\ (exists c tkn claims user,
         CookieOf (Fixture.cookie_request "jwt") "passwall_token" = Ok c
         /\ jwt_ParseWithClaims (Fixture.env 5 None) (CookieValue c)
              (jwtKey (Fixture.env 5 None)) = Ok (tkn, claims)
         /\ Valid tkn = true
         /\ Users_FindByUUID Fixture.store (ClaimsUserUUID claims) = Ok user
         /\ app_RefreshTokenWithClaims (Fixture.env 5 None) user claims
            = Ok {| CookieName := "passwall_token"; CookieValue := "jwt2" |}).
Proof.
  pose (c := fun value => {| CookieName := "passwall_token"; CookieValue := value |}).
  split; [|split; [|split]].
  - apply (proj1 (RefreshToken_other_failures (Fixture.env 5 None) Fixture.store
                    (Fixture.request "" ∅ ∅ ∅) (Fixture.world ∅))).
    reflexivity.
  - apply (proj1 (proj1 (proj2 (RefreshToken_other_failures (Fixture.env 5 None)
                    Fixture.store (Fixture.cookie_request "stale") (Fixture.world ∅)))
                    (c "stale") eq_refl) (ErrOther "token is expired")).
    + reflexivity.
    + discriminate.
  - apply (proj2 (proj1 (proj2 (RefreshToken_other_failures (Fixture.env 5 None)
                    Fixture.store (Fixture.cookie_request "ghost") (Fixture.world ∅)))
                    (c "ghost") eq_refl)
             (fst (Fixture.parsed "u-9")) (snd (Fixture.parsed "u-9"))
             (ErrOther "record not found"));
      reflexivity.
  - apply (proj2 (proj2 (RefreshToken_other_failures (Fixture.env 5 None) Fixture.store
                    (Fixture.cookie_request "jwt") (Fixture.world ∅)))
             (RespondWithToken StatusOK
                {| CookieName := "passwall_token"; CookieValue := "jwt2" |}
                {| Type_ := "free"; TransmissionKey := "";
                   EmbeddedUserDTO := {| DTOName := "Alice"; DTOEmail := "alice@x.com";
                                         DTOMasterPassword := "" |};
                   EmbeddedSubscriptionAuthDTO := None |}));
      reflexivity.
Defined.

(** ** Subscription lookup *)

(** C4.  Once the credentials are accepted (Signin), or the token is valid
    and its user found (RefreshToken), the answer of the subscription lookup
    has no influence on whether the request succeeds: the HTTP status is the
    same for any two lookups, the only failure left is the token helper's
    (500), and in the successful reply the tier is [free] when the lookup
    returned an error and [pro] when it returned a subscription. *)
Theorem subscription_soft_degrade (env : Env) (s : Store) (r : Request) (w : World) :
  (forall loginDTO user,
      json_DecodeAuthLoginDTO env (Body r) = Ok loginDTO ->
      app_PayloadValidatorLogin env loginDTO = ValidationPassed ->
      Users_FindByCredentials s (LoginEmail loginDTO) (MasterPassword loginDTO)
      = Ok user ->
      let run f := reply_of (Signin env (with_subscriptions s f) r) w in
      (forall f g, status_of (run f) = status_of (run g))
      /\ (forall f, status_of (run f) <> Some StatusOK ->
                    exists err, app_CreateToken env user = Err err)
      /\ (forall f cookie key,
             app_CreateToken env user = Ok (cookie, key) ->
             exists resp,
               run f = Responded (RespondWithToken StatusOK cookie resp)
               /\ Type_ resp = tier_of (f (UserEmail user))))
  /\ (forall c tkn claims user,
         CookieOf r "passwall_token" = Ok c ->
         jwt_ParseWithClaims env (CookieValue c) (jwtKey env) = Ok (tkn, claims) ->
         Valid tkn = true ->
         Users_FindByUUID s (ClaimsUserUUID claims) = Ok user ->
         let run f := reply_of (RefreshToken env (with_subscriptions s f) r) w in
         (forall f g, status_of (run f) = status_of (run g))
         /\ (forall f, status_of (run f) <> Some StatusOK ->
                       exists err, app_RefreshTokenWithClaims env user claims = Err err)
         /\ (forall f cookie,
                app_RefreshTokenWithClaims env user claims = Ok cookie ->
                exists resp,
                  run f = Responded (RespondWithToken StatusOK cookie resp)
                  /\ Type_ resp = tier_of (f (UserEmail user)))).
Proof.
  split.
  - intros loginDTO user Hdec Hval Hcred run.
    assert (Hrun : forall f,
               run f
               = match app_CreateToken env user with
                 | Err _ => Responded (RespondWithError StatusInternalServerError
                                                        tokenCreateErr)
                 | Ok (cookie, key) =>
                     Responded (RespondWithToken StatusOK cookie
                       {| Type_ := tier_of (f (UserEmail user));
                          TransmissionKey := key;
                          EmbeddedUserDTO := model_ToUserDTO env user;
                          EmbeddedSubscriptionAuthDTO :=
                            model_ToSubscriptionAuthDTO env
                              (value_of (f (UserEmail user))) |})
                 end).
    { intros f. unfold run, reply_of, Signin. rewrite Hdec, Hval. run.
      cbn [with_subscriptions Users_FindByCredentials Subscriptions_FindByEmail].
      rewrite Hcred.
      destruct (app_CreateToken env user) as [[cookie key]|e];
        destruct (f (UserEmail user)); reflexivity. }
    split; [|split].
    + intros f g. rewrite !Hrun.
      destruct (app_CreateToken env user) as [[cookie key]|e]; reflexivity.
    + intros f. rewrite Hrun.
      destruct (app_CreateToken env user) as [[cookie key]|e].
      * intros Hne. exfalso. apply Hne. reflexivity.
      * intros _. exists e. reflexivity.
    + intros f cookie key Htok. rewrite Hrun, Htok.
      eexists. split; reflexivity.
  - intros c tkn claims user Hcookie Hparse Hvalid Hfind run.
    assert (Hrun : forall f,
               run f
               = match app_RefreshTokenWithClaims env user claims with
                 | Err _ => Responded (RespondWithError StatusInternalServerError
                                                        tokenCreateErr)
                 | Ok cookie =>
                     Responded (RespondWithToken StatusOK cookie
                       {| Type_ := tier_of (f (UserEmail user));
                          TransmissionKey := "";
                          EmbeddedUserDTO := model_ToUserDTO env user;
                          EmbeddedSubscriptionAuthDTO :=
                            model_ToSubscriptionAuthDTO env
                              (value_of (f (UserEmail user))) |})
                 end).
    { intros f. unfold run, reply_of, RefreshToken.
      rewrite Hcookie, Hparse, Hvalid. cbn [negb]. run.
      cbn [with_subscriptions Users_FindByUUID Subscriptions_FindByEmail].
      rewrite Hfind.
      destruct (app_RefreshTokenWithClaims env user claims) as [cookie|e];
        destruct (f (UserEmail user)); reflexivity. }
    split; [|split].
    + intros f g. rewrite !Hrun.
      destruct (app_RefreshTokenWithClaims env user claims); reflexivity.
    + intros f. rewrite Hrun.
      destruct (app_RefreshTokenWithClaims env user claims) as [cookie|e].
      * intros Hne. exfalso. apply Hne. reflexivity.
      * intros _. exists e. reflexivity.
    + intros f cookie Htok. rewrite Hrun, Htok.
      eexists. split; reflexivity.
Qed.

Lemma subscription_soft_degrade_witness :
  (exists resp,
      reply_of (Signin (Fixture.env 5 None)
                  (with_subscriptions Fixture.store Fixture.lookup_down)
                  (Fixture.request "alice@x.com" ∅ ∅ ∅)) (Fixture.world ∅)
      = Responded (RespondWithToken StatusOK
                     {| CookieName := "passwall_token"; CookieValue := "jwt" |} resp)
      /\ Type_ resp = "free")
  /\ (exists resp,
         reply_of (Signin (Fixture.env 5 None)
                     (with_subscriptions Fixture.store Fixture.subscribed)
                     (Fixture.request "alice@x.com" ∅ ∅ ∅)) (Fixture.world ∅)
         = Responded (RespondWithToken StatusOK
                        {| CookieName := "passwall_token"; CookieValue := "jwt" |} resp)
         /\ Type_ resp = "pro")
  /\ (exists resp,
         reply_of (RefreshToken (Fixture.env 5 None)
                     (with_subscriptions Fixture.store Fixture.lookup_down)
                     (Fixture.cookie_request "jwt")) (Fixture.world ∅)
         = Responded (RespondWithToken StatusOK
                        {| CookieName := "passwall_token"; CookieValue := "jwt2" |} resp)
         /\ Type_ resp = "free").
Proof.
  split; [|split].
  - apply (proj2 (proj2 (proj1 (subscription_soft_degrade (Fixture.env 5 None)
             Fixture.store (Fixture.request "alice@x.com" ∅ ∅ ∅) (Fixture.world ∅))
             {| LoginEmail := "alice@x.com"; MasterPassword := "secret" |}
             Fixture.alice eq_refl eq_refl eq_refl))
             Fixture.lookup_down _ "key").
    reflexivity.
  - apply (proj2 (proj2 (proj1 (subscription_soft_degrade (Fixture.env 5 None)
             Fixture.store (Fixture.request "alice@x.com" ∅ ∅ ∅) (Fixture.world ∅))
             {| LoginEmail := "alice@x.com"; MasterPassword := "secret" |}
             Fixture.alice eq_refl eq_refl eq_refl))
             Fixture.subscribed _ "key").
    reflexivity.
  - apply (proj2 (proj2 (proj2 (subscription_soft_degrade (Fixture.env 5 None)
             Fixture.store (Fixture.cookie_request "jwt") (Fixture.world ∅))
             {| CookieName := "passwall_token"; CookieValue := "jwt" |}
             (fst (Fixture.parsed "u-7")) (snd (Fixture.parsed "u-7"))
             Fixture.alice eq_refl eq_refl eq_refl eq_refl))
             Fixture.lookup_down).
    reflexivity.
Defined.

(** ** The code-request handlers, run to the end *)

Lemma rand_Intn_code (env : Env) (w : World) :
  rand_Intn env (999999 - 100000 + 1) w
  = (Next (rand_draw env mod (999999 - 100000 + 1)), w).
Proof. reflexivity. Qed.

Lemma CreateCode_run (env : Env) (s : Store) (r : Request) (w : World)
      (signup : AuthEmail) (err : error) :
  json_DecodeAuthEmail env (Body r) = Ok signup ->
  Users_FindByEmail s (Email signup) = Err err ->
  serve (CreateCode env s r) w
  = (Responded (match mail_answer env (code_mail env (Email signup)) with
                | Some _ => RespondWithError StatusBadRequest "Couldn't send email"
                | None => success_response env codeSuccess
                end),
     {| cache := <[Email signup := IString (fresh_code env)]> (cache w);
        trace := trace w ++ [EvUsersFindByEmail (Email signup);
                             EvCacheSet (Email signup) (IString (fresh_code env));
                             code_mail env (Email signup)] |}).
Proof.
  intros Hdec Hfind. unfold CreateCode. rewrite Hdec. run. rewrite Hfind.
  cbv zeta. rewrite rand_Intn_code. run.
  unfold mail_answer, code_mail, fresh_code.
  rewrite <- !app_assoc. cbn [app].
  destruct (app_SendMail env _ _ _ _); reflexivity.
Qed.

Lemma CreateDeleteCode_run (env : Env) (s : Store) (r : Request) (w : World)
      (signup : AuthEmail) (user : User) :
  json_DecodeAuthEmail env (Body r) = Ok signup ->
  Users_FindByEmail s (Email signup) = Ok user ->
  serve (CreateDeleteCode env s r) w
  = (Responded (match mail_answer env (delete_code_mail env (Email signup)) with
                | Some _ => RespondWithError StatusBadRequest "Couldn't send email"
                | None => success_response env codeSuccess
                end),
     {| cache := <[Email signup := IString (fresh_code env)]> (cache w);
        trace := trace w ++ [EvUsersFindByEmail (Email signup);
                             EvCacheSet (Email signup) (IString (fresh_code env));
                             delete_code_mail env (Email signup)] |}).
Proof.
  intros Hdec Hfind. unfold CreateDeleteCode. rewrite Hdec. run. rewrite Hfind.
  cbv zeta. rewrite rand_Intn_code. run.
  unfold mail_answer, delete_code_mail, fresh_code.
  rewrite <- !app_assoc. cbn [app].
  destruct (app_SendMail env _ _ _ _); reflexivity.
Qed.

Lemma fresh_code_six_digits (env : Env) : six_digit_code (IString (fresh_code env)).
Proof.
  set (n := rand_draw env mod (999999 - 100000 + 1) + 100000).
  assert (Hn : 100000 <= n <= 999999).
  { unfold n. pose proof (Z.mod_pos_bound (rand_draw env) (999999 - 100000 + 1)). lia. }
  destruct (Itoa_six_digits n Hn) as (Hlen & Hdig & Hval).
  exists (Itoa n), n. repeat split; try assumption; lia.
Qed.

(** ** Status codes of the state errors *)

(** C5, as the code has it.  In the code-request, code-verification, signup
    and account-deletion handlers every state error is answered through
    [RespondWithError] with a 4xx status and a text:
    - email not verified (Signup, RecoverDelete): 401 "Email is not verified";
    - code not found (VerifyCode): 400 "Code couldn't found!";
    - code mismatch (VerifyCode): 400 "Code doesn't match!";
    - duplicate email (CreateCode, Signup): 400 "User couldn't created!";
    - user not found: 400 "User couldn't be found!" in CreateDeleteCode, and
      404 with the text of the store's error in RecoverDelete. *)
Theorem state_error_replies (env : Env) (s : Store) (r : Request) (w : World) :
  (forall userSignup,
      json_DecodeUserSignup env (Body r) = Ok (Some userSignup) ->
      (~ verified_in w (SignupEmail userSignup) ->
       answers (Signup env s r) w StatusUnauthorized "Email is not verified")
      /\ (forall user,
             verified_in w (SignupEmail userSignup) ->
             app_PayloadValidatorSignup env userSignup = ValidationPassed ->
             Users_FindByEmail s (DTOEmail (model_ConvertUserDTO env userSignup))
             = Ok user ->
             answers (Signup env s r) w StatusBadRequest "User couldn't created!"))
  /\ (~ verified_in w (mux_Var r "email") ->
      answers (RecoverDelete env s r) w StatusUnauthorized "Email is not verified")
  /\ (forall err,
         verified_in w (mux_Var r "email") ->
         Users_FindByEmail s (mux_Var r "email") = Err err ->
         answers (RecoverDelete env s r) w StatusNotFound (Error err))
  /\ (cache w !! FormValue r "email" = None ->
      answers (VerifyCode env r) w StatusBadRequest "Code couldn't found!")
  /\ (forall cached,
         cache w !! FormValue r "email" = Some (IString cached) ->
         mux_Var r "code" <> cached ->
         answers (VerifyCode env r) w StatusBadRequest "Code doesn't match!")
  /\ (forall signup,
         json_DecodeAuthEmail env (Body r) = Ok signup ->
         (forall user,
             Users_FindByEmail s (Email signup) = Ok user ->
             answers (CreateCode env s r) w StatusBadRequest "User couldn't created!")
         /\ (forall err,
                Users_FindByEmail s (Email signup) = Err err ->
                answers (CreateDeleteCode env s r) w StatusBadRequest
                        "User couldn't be found!")).
Proof.
  unfold answers, reply_of.
  split; [|split; [|split; [|split; [|split]]]].
  - intros u Hdec. unfold Signup. rewrite Hdec. run. split.
    + intros Hnot.
      destruct (isMailVerified_spec env (SignupEmail u) w) as [[Hv _]|[_ [err ->]]];
        [contradiction|reflexivity].
    + intros user Hv Hval Hfind.
      destruct (isMailVerified_spec env (SignupEmail u) w) as [[_ ->]|[Hnot _]];
        [|contradiction].
      rewrite Hval. run. rewrite Hfind. reflexivity.
  - intros Hnot. unfold RecoverDelete. run.
    destruct (isMailVerified_spec env (mux_Var r "email") w) as [[Hv _]|[_ [err ->]]];
      [contradiction|reflexivity].
  - intros err Hv Hfind. unfold RecoverDelete. run.
    destruct (isMailVerified_spec env (mux_Var r "email") w) as [[_ ->]|[Hnot _]];
      [|contradiction].
    rewrite Hfind. reflexivity.
  - intros Hget. unfold VerifyCode. run. rewrite Hget. reflexivity.
  - intros cached Hget Hne. unfold VerifyCode. run. rewrite Hget. cbn [as_string].
    destruct (String.eqb_spec (mux_Var r "code") cached) as [Heq|_]; [contradiction|].
    reflexivity.
  - intros signup Hdec. split.
    + intros user Hfind. unfold CreateCode. rewrite Hdec. run. rewrite Hfind.
      reflexivity.
    + intros err Hfind. unfold CreateDeleteCode. rewrite Hdec. run. rewrite Hfind.
      reflexivity.
Qed.

Lemma state_error_replies_witness :
  answers (Signup (Fixture.env 5 None) Fixture.store
             (Fixture.request "bob@x.com" ∅ ∅ ∅)) (Fixture.world ∅)
          StatusUnauthorized "Email is not verified"
  /\ answers (Signup (Fixture.env 5 None) Fixture.store
                (Fixture.request "alice@x.com" ∅ ∅ ∅))
             (Fixture.world {[ "alice@x.com" := IString "verified" ]})
             StatusBadRequest "User couldn't created!"
  /\ answers (RecoverDelete (Fixture.env 5 None) Fixture.store
                (Fixture.request "" {[ "email" := "bob@x.com" ]} ∅ ∅))
             (Fixture.world {[ "bob@x.com" := IString "verified" ]})
             StatusNotFound "record not found"
  /\ answers (VerifyCode (Fixture.env 5 None)
                (Fixture.request "" {[ "code" := "000000" ]} {[ "email" := "a@x.com" ]} ∅))
             (Fixture.world {[ "a@x.com" := IString "123456" ]})
             StatusBadRequest "Code doesn't match!"
  /\ answers (CreateDeleteCode (Fixture.env 5 None) Fixture.store
                (Fixture.request "bob@x.com" ∅ ∅ ∅)) (Fixture.world ∅)
             StatusBadRequest "User couldn't be found!".
Proof.
  split; [|split; [|split; [|split]]].
  - apply (proj1 (proj1 (state_error_replies (Fixture.env 5 None) Fixture.store
                    (Fixture.request "bob@x.com" ∅ ∅ ∅) (Fixture.world ∅))
             {| SignupName := "Bob"; SignupEmail := "bob@x.com";
                SignupMasterPassword := "secret" |} eq_refl)).
    vm_compute. discriminate.
  - apply (proj2 (proj1 (state_error_replies (Fixture.env 5 None) Fixture.store
                    (Fixture.request "alice@x.com" ∅ ∅ ∅)
                    (Fixture.world {[ "alice@x.com" := IString "verified" ]}))
             {| SignupName := "Bob"; SignupEmail := "alice@x.com";
                SignupMasterPassword := "secret" |} eq_refl) Fixture.alice);
      reflexivity.
  - refine (proj1 (proj2 (proj2 (state_error_replies (Fixture.env 5 None) Fixture.store
                    (Fixture.request "" {[ "email" := "bob@x.com" ]} ∅ ∅)
                    (Fixture.world {[ "bob@x.com" := IString "verified" ]}))))
             (ErrOther "record not found") _ _);
      reflexivity.
  - refine (proj1 (proj2 (proj2 (proj2 (proj2 (state_error_replies (Fixture.env 5 None)
                    Fixture.store
                    (Fixture.request "" {[ "code" := "000000" ]}
                                     {[ "email" := "a@x.com" ]} ∅)
                    (Fixture.world {[ "a@x.com" := IString "123456" ]}))))))
             "123456" _ _).
    + reflexivity.
    + vm_compute. discriminate.
  - apply (proj2 (proj2 (proj2 (proj2 (proj2 (proj2 (state_error_replies
                    (Fixture.env 5 None) Fixture.store
                    (Fixture.request "bob@x.com" ∅ ∅ ∅) (Fixture.world ∅))))))
             {| Email := "bob@x.com" |} eq_refl) (ErrOther "record not found")).
    reflexivity.
Defined.

(** C5 as stated fails: an unverified email at Signup is a state error, and
    its status, 401, is neither 400 nor 404. *)
Lemma state_error_status_counterexample :
  ~ verified_in (Fixture.world ∅) "bob@x.com"
  /\ reply_of (Signup (Fixture.env 5 None) Fixture.store
                 (Fixture.request "bob@x.com" ∅ ∅ ∅)) (Fixture.world ∅)
     = Responded (RespondWithError 401 "Email is not verified")
  /\ ~ bad_request_or_not_found
       (status_code (RespondWithError 401 "Email is not verified")).
Proof.
  split; [|split].
  - vm_compute. discriminate.
  - reflexivity.
  - unfold bad_request_or_not_found, StatusBadRequest, StatusNotFound.
    cbn [status_code]. lia.
Qed.

(** ** Dispatch failures *)

(** C6, as the code has it.  When the mailer fails in a code-request handler
    ([CreateCode] for an email without account, [CreateDeleteCode] for an
    email with one), the answer is 400 "Couldn't send email", and the handler
    made no call that creates a user. *)
Theorem dispatch_failure_reply (env : Env) (s : Store) (r : Request) (w : World)
        (signup : AuthEmail) :
  json_DecodeAuthEmail env (Body r) = Ok signup ->
  (forall err merr,
      Users_FindByEmail s (Email signup) = Err err ->
      mail_answer env (code_mail env (Email signup)) = Some merr ->
      answers (CreateCode env s r) w StatusBadRequest "Couldn't send email"
      /\ ~ creates_user (CreateCode env s r) w)
  /\ (forall user merr,
         Users_FindByEmail s (Email signup) = Ok user ->
         mail_answer env (delete_code_mail env (Email signup)) = Some merr ->
         answers (CreateDeleteCode env s r) w StatusBadRequest "Couldn't send email"
         /\ ~ creates_user (CreateDeleteCode env s r) w).
Proof.
  intros Hdec. unfold answers, reply_of, creates_user. split.
  - intros err merr Hfind Hmail.
    pose proof (CreateCode_run env s r w signup err Hdec Hfind) as Hrun.
    rewrite (calls_added _ _ _ _ _ Hrun), Hrun, Hmail. cbn [fst].
    split; [reflexivity|].
    rewrite !Exists_cons, Exists_nil. cbn [is_user_create code_mail].
    intros [H|[H|[H|H]]]; try discriminate; exact H.
  - intros user merr Hfind Hmail.
    pose proof (CreateDeleteCode_run env s r w signup user Hdec Hfind) as Hrun.
    rewrite (calls_added _ _ _ _ _ Hrun), Hrun, Hmail. cbn [fst].
    split; [reflexivity|].
    rewrite !Exists_cons, Exists_nil. cbn [is_user_create delete_code_mail].
    intros [H|[H|[H|H]]]; try discriminate; exact H.
Qed.

Lemma dispatch_failure_reply_witness :
  (answers (CreateCode (Fixture.env 5 (Some (ErrOther "smtp down"))) Fixture.store
              (Fixture.request "bob@x.com" ∅ ∅ ∅)) (Fixture.world ∅)
           StatusBadRequest "Couldn't send email"
   /\ ~ creates_user (CreateCode (Fixture.env 5 (Some (ErrOther "smtp down")))
                        Fixture.store (Fixture.request "bob@x.com" ∅ ∅ ∅))
                     (Fixture.world ∅))
  /\ (answers (CreateDeleteCode (Fixture.env 5 (Some (ErrOther "smtp down")))
                 Fixture.store (Fixture.request "alice@x.com" ∅ ∅ ∅)) (Fixture.world ∅)
              StatusBadRequest "Couldn't send email"
      /\ ~ creates_user (CreateDeleteCode (Fixture.env 5 (Some (ErrOther "smtp down")))
                           Fixture.store (Fixture.request "alice@x.com" ∅ ∅ ∅))
                        (Fixture.world ∅)).
Proof.
  split.
  - apply (proj1 (dispatch_failure_reply (Fixture.env 5 (Some (ErrOther "smtp down")))
                    Fixture.store (Fixture.request "bob@x.com" ∅ ∅ ∅) (Fixture.world ∅)
                    {| Email := "bob@x.com" |} eq_refl)
             (ErrOther "record not found") (ErrOther "smtp down"));
      reflexivity.
  - apply (proj2 (dispatch_failure_reply (Fixture.env 5 (Some (ErrOther "smtp down")))
                    Fixture.store (Fixture.request "alice@x.com" ∅ ∅ ∅) (Fixture.world ∅)
                    {| Email := "alice@x.com" |} eq_refl)
             Fixture.alice (ErrOther "smtp down"));
      reflexivity.
Defined.

(** C6 as stated fails: with the mailer down, [CreateCode] answers with
    status 400, which is not a 5xx status. *)
Lemma dispatch_failure_status_counterexample :
  mail_answer (Fixture.env 5 (Some (ErrOther "smtp down")))
              (code_mail (Fixture.env 5 (Some (ErrOther "smtp down"))) "bob@x.com")
  = Some (ErrOther "smtp down")
  /\ reply_of (CreateCode (Fixture.env 5 (Some (ErrOther "smtp down"))) Fixture.store
                 (Fixture.request "bob@x.com" ∅ ∅ ∅)) (Fixture.world ∅)
     = Responded (RespondWithError 400 "Couldn't send email")
  /\ ~ server_error (status_code (RespondWithError 400 "Couldn't send email")).
Proof.
  split; [|split].
  - reflexivity.
  - vm_compute. reflexivity.
  - unfold server_error. cbn [status_code]. lia.
Qed.

(** ** The generated code *)


(** ** Cache write and dispatch *)

(** C9.  A code-request handler that gets past the account check writes the
    new code to the cache and only then calls the mailer; the cache after the
    request is the old one with the email's entry overwritten, whatever the
    mailer answers.  When the dispatch fails the answer is the dispatch
    error and the new code is what the cache holds for the email. *)
Theorem code_stored_before_dispatch (env : Env) (s : Store) (r : Request) (w : World)
        (signup : AuthEmail) :
  json_DecodeAuthEmail env (Body r) = Ok signup ->
  let email := Email signup in
  let stored := EvCacheSet email (IString (fresh_code env)) in
  (forall err,
      Users_FindByEmail s email = Err err ->
      let w' := snd (serve (CreateCode env s r) w) in
      calls (CreateCode env s r) w
      = [EvUsersFindByEmail email; stored; code_mail env email]
      /\ cache w' = <[email := IString (fresh_code env)]> (cache w)
      /\ (forall merr,
             mail_answer env (code_mail env email) = Some merr ->
             answers (CreateCode env s r) w StatusBadRequest "Couldn't send email"
             /\ cache w' !! email = Some (IString (fresh_code env))))
  /\ (forall user,
         Users_FindByEmail s email = Ok user ->
         let w' := snd (serve (CreateDeleteCode env s r) w) in
         calls (CreateDeleteCode env s r) w
         = [EvUsersFindByEmail email; stored; delete_code_mail env email]
         /\ cache w' = <[email := IString (fresh_code env)]> (cache w)
         /\ (forall merr,
                mail_answer env (delete_code_mail env email) = Some merr ->
                answers (CreateDeleteCode env s r) w StatusBadRequest
                        "Couldn't send email"
                /\ cache w' !! email = Some (IString (fresh_code env)))).
Proof.
  intros Hdec email stored. subst email stored. unfold answers, reply_of. split.
  - intros err Hfind. cbv zeta.
    pose proof (CreateCode_run env s r w signup err Hdec Hfind) as Hrun.
    rewrite (calls_added _ _ _ _ _ Hrun), Hrun. cbn [fst snd cache].
    split; [reflexivity|]. split; [reflexivity|].
    intros merr Hmail. rewrite Hmail.
    split; [reflexivity|]. apply lookup_insert_eq.
  - intros user Hfind. cbv zeta.
    pose proof (CreateDeleteCode_run env s r w signup user Hdec Hfind) as Hrun.
    rewrite (calls_added _ _ _ _ _ Hrun), Hrun. cbn [fst snd cache].
    split; [reflexivity|]. split; [reflexivity|].
    intros merr Hmail. rewrite Hmail.
    split; [reflexivity|]. apply lookup_insert_eq.
Qed.

Lemma code_stored_before_dispatch_witness :
  cache (snd (serve (CreateCode (Fixture.env 23456 (Some (ErrOther "smtp down")))
                       Fixture.store (Fixture.request "bob@x.com" ∅ ∅ ∅))
                    (Fixture.world {[ "bob@x.com" := IString "verified" ]})))
    !! "bob@x.com" = Some (IString "123456")
  /\ cache (snd (serve (CreateDeleteCode (Fixture.env 23456 (Some (ErrOther "smtp down")))
                          Fixture.store (Fixture.request "alice@x.com" ∅ ∅ ∅))
                       (Fixture.world {[ "alice@x.com" := IString "654321" ]})))
       !! "alice@x.com" = Some (IString "123456").
Proof.
  split.
  - apply (proj2 (proj2 (proj1 (code_stored_before_dispatch
             (Fixture.env 23456 (Some (ErrOther "smtp down"))) Fixture.store
             (Fixture.request "bob@x.com" ∅ ∅ ∅)
             (Fixture.world {[ "bob@x.com" := IString "verified" ]})
             {| Email := "bob@x.com" |} eq_refl)
             (ErrOther "record not found") eq_refl))
             (ErrOther "smtp down")).
    reflexivity.
  - apply (proj2 (proj2 (proj2 (code_stored_before_dispatch
             (Fixture.env 23456 (Some (ErrOther "smtp down"))) Fixture.store
             (Fixture.request "alice@x.com" ∅ ∅ ∅)
             (Fixture.world {[ "alice@x.com" := IString "654321" ]})
             {| Email := "alice@x.com" |} eq_refl)
             Fixture.alice eq_refl))
             (ErrOther "smtp down")).
    reflexivity.
Defined.

(** ** The token-check endpoint *)

Section SplitAtByte.

Variable c : ascii.

Lemma prefix_empty (s : string) : String.prefix "" s = true.
Proof. destruct s; reflexivity. Qed.

Lemma substring_whole (s : string) : substring 0 (String.length s) s = s.
Proof.
  induction s as [|b s IH]; [reflexivity|].
  cbn [String.length substring]. rewrite IH. reflexivity.
Qed.

(** Where [strings.Index] finds the separator, and what is left after it. *)
Lemma index_byte (s : string) :
  match String.index 0 (String c "") s with
  | None => count_byte c s = 0%nat
  | Some m =>
      let rest := substring (m + 1) (String.length s - (m + 1)) s in
      count_byte c s = S (count_byte c rest)
      /\ (String.length rest < String.length s)%nat
  end.
Proof.
  induction s as [|b s IH]; [reflexivity|].
  cbn [String.index String.prefix count_byte].
  destruct (ascii_dec c b) as [->|Hne].
  - rewrite prefix_empty. cbv zeta.
    cbn [Nat.add String.length Nat.sub substring].
    rewrite Nat.sub_0_r, substring_whole, Ascii.eqb_refl. split; lia.
  - destruct (Ascii.eqb_spec c b) as [Heq|_]; [contradiction|].
    destruct (String.index 0 (String c "") s) as [m|]; [|exact IH].
    cbv zeta in *. cbn [Nat.add String.length Nat.sub substring].
    destruct IH as [Hcount Hlen]. split; [exact Hcount|lia].
Qed.

Lemma genSplit_length (fuel : nat) :
  forall s, (String.length s <= fuel)%nat ->
            length (genSplit fuel s (String c "")) = S (count_byte c s).
Proof.
  induction fuel as [|fuel IH]; intros s Hlen.
  - destruct s; [reflexivity|]. cbn [String.length] in Hlen. lia.
  - cbn [genSplit]. pose proof (index_byte s) as Hidx.
    destruct (String.index 0 (String c "") s) as [m|].
    + cbv zeta in *. cbn [String.length] in *. destruct Hidx as [Hcount Hrest].
      cbn [length]. rewrite IH by lia. rewrite Hcount. reflexivity.
    + rewrite Hidx. reflexivity.
Qed.

End SplitAtByte.

(** Cutting at a one-character separator gives one part more than there are
    separators. *)
Lemma Split_byte_length (c : ascii) (s : string) :
  length (Split s (String c "")) = S (count_byte c s).
Proof.
  unfold Split. cbn [String.eqb]. apply genSplit_length. lia.
Qed.

Example Split_bearer : Split "Bearer abc" " " = ["Bearer"; "abc"].
Proof. reflexivity. Qed.

Example Split_empty : Split "" " " = [""].
Proof. reflexivity. Qed.

Example Split_no_space : Split "abc" " " = ["abc"].
Proof. reflexivity. Qed.

Example Split_three : Split "Bearer abc def" " " = ["Bearer"; "abc"; "def"].
Proof. reflexivity. Qed.

Example Split_trailing_space : Split "Bearer " " " = ["Bearer"; ""].
Proof. reflexivity. Qed.

(** C8.  [CheckToken] cuts the [Authorization] header at the spaces.  When
    that does not give exactly two parts, the answer is 401 with the no-token
    text and nothing else happens.  When it gives exactly two parts, the
    second one is the token string: the rest of the handler runs on it, so a
    non-empty second part is what [app.TokenValid] is asked about (an empty
    one is no token).  Exactly two parts means exactly one space in the
    header. *)
Theorem CheckToken_bearer (env : Env) (s : Store) (r : Request) (w : World) :
  let strArr := Split (Header_Get r "Authorization") " " in
  (length strArr <> 2%nat ->
   serve (CheckToken env s r) w
   = (Responded (RespondWithError StatusUnauthorized noToken), w))
  /\ (forall part1 part2,
         strArr = [part1; part2] ->
         bearer_tokenStr (Header_Get r "Authorization") = part2
         /\ CheckToken env s r = CheckToken_from env s part2
         /\ (forall err,
                part2 <> "" -> app_TokenValid env part2 = Err err ->
                serve (CheckToken env s r) w
                = (Responded (RespondWithError StatusUnauthorized invalidToken), w)))
  /\ (length strArr = 2%nat
      <-> count_byte " " (Header_Get r "Authorization") = 1%nat).
Proof.
  intros strArr. subst strArr. unfold CheckToken, bearer_tokenStr.
  split; [|split].
  - intros Hlen. apply Nat.eqb_neq in Hlen. rewrite Hlen. reflexivity.
  - intros part1 part2 ->. cbn [length nth Nat.eqb].
    split; [reflexivity|]. split; [reflexivity|].
    intros err Hne Hvalid. unfold CheckToken_from.
    destruct (String.eqb_spec part2 "") as [Heq|_]; [contradiction|].
    rewrite Hvalid. reflexivity.
  - rewrite Split_byte_length. lia.
Qed.

Lemma CheckToken_bearer_witness :
  serve (CheckToken (Fixture.env 5 None) Fixture.store
           (Fixture.bearer_request "Bearer abc def")) (Fixture.world ∅)
  = (Responded (RespondWithError StatusUnauthorized noToken), Fixture.world ∅)
  /\ bearer_tokenStr (Header_Get (Fixture.bearer_request "Bearer garbage")
                                 "Authorization") = "garbage"
  /\ serve (CheckToken (Fixture.env 5 None) Fixture.store
              (Fixture.bearer_request "Bearer garbage")) (Fixture.world ∅)
     = (Responded (RespondWithError StatusUnauthorized invalidToken), Fixture.world ∅).
Proof.
  pose proof (CheckToken_bearer (Fixture.env 5 None) Fixture.store
                (Fixture.bearer_request "Bearer abc def") (Fixture.world ∅)) as Hthree.
  pose proof (CheckToken_bearer (Fixture.env 5 None) Fixture.store
                (Fixture.bearer_request "Bearer garbage") (Fixture.world ∅)) as Htwo.
  cbv zeta in Hthree, Htwo.
  destruct Hthree as [Hno _]. destruct Htwo as [_ [Hparts _]].
  destruct (Hparts "Bearer" "garbage" eq_refl) as (Htoken & _ & Hinvalid).
  split; [|split].
  - apply Hno. vm_compute. discriminate.
  - exact Htoken.
  - apply (Hinvalid (ErrOther "token is malformed")).
    + discriminate.
    + reflexivity.
Defined.

(** C10.  For a request whose token string is not empty and passes
    [app.TokenValid], [CheckToken] writes a reply exactly when the claims of
    the token are a map holding a string under [user_uuid].  For a valid
    token with claims of another type, without [user_uuid], or with a
    [user_uuid] that is not a string, a type assertion panics: the handler
    writes no reply at all, in particular neither the no-token nor the
    invalid-token one, and has called nothing. *)
Theorem CheckToken_assertions (env : Env) (s : Store) (r : Request) (w : World)
        (token : Token) :
  let tokenStr := bearer_tokenStr (Header_Get r "Authorization") in
  tokenStr <> "" ->
  app_TokenValid env tokenStr = Ok token ->
  (has_user_uuid token -> exists rep, reply_of (CheckToken env s r) w = Responded rep)
  /\ (~ has_user_uuid token -> serve (CheckToken env s r) w = (Panic, w))
  /\ (reply_of (CheckToken env s r) w = Panic <-> ~ has_user_uuid token).
Proof.
  intros tokenStr Hne Hvalid.
  assert (Hrun : serve (CheckToken env s r) w
                 = serve (match TokenClaims token with
                          | StructClaims _ => panic
                          | MapClaims claims =>
                              match as_string (default INil (claims !! "user_uuid")) with
                              | None => panic
                              | Some userUUID =>
                                  found <- call (EvUsersFindByUUID userUUID)
                                                (Users_FindByUUID s userUUID) ;;
                                  match found with
                                  | Err _ => reply (RespondWithError StatusUnauthorized
                                                                     invalidUser)
                                  | Ok user =>
                                      reply (RespondWithJSON StatusOK
                                               (PUserDTOTable
                                                  (model_ToUserDTOTable env user)))
                                  end
                              end
                          end) w).
  { unfold CheckToken, CheckToken_from. fold tokenStr.
    destruct (String.eqb_spec tokenStr "") as [Heq|_]; [contradiction|].
    rewrite Hvalid. reflexivity. }
  assert (Hyes : has_user_uuid token ->
                 exists rep, reply_of (CheckToken env s r) w = Responded rep).
  { intros (m & uuid & Hclaims & Hget). unfold reply_of. rewrite Hrun, Hclaims, Hget.
    cbn [from_option id as_string]. run.
    destruct (Users_FindByUUID s uuid); eexists; reflexivity. }
  assert (Hno : ~ has_user_uuid token -> serve (CheckToken env s r) w = (Panic, w)).
  { intros Hnot. rewrite Hrun.
    destruct (TokenClaims token) as [m|c] eqn:Hclaims; [|reflexivity].
    destruct (m !! "user_uuid") as [[uuid| | |]|] eqn:Hget; try reflexivity.
    exfalso. apply Hnot. exists m, uuid. split; [exact Hclaims|exact Hget]. }
  split; [exact Hyes|]. split; [exact Hno|]. split.
  - intros Hpanic Hhas. destruct (Hyes Hhas) as [rep Hrep]. congruence.
  - intros Hnot. unfold reply_of. rewrite (Hno Hnot). reflexivity.
Qed.

Lemma CheckToken_assertions_witness :
  serve (CheckToken (Fixture.env 5 None) Fixture.store
           (Fixture.bearer_request "Bearer struct")) (Fixture.world ∅)
  = (Panic, Fixture.world ∅)
  /\ serve (CheckToken (Fixture.env 5 None) Fixture.store
              (Fixture.bearer_request "Bearer anonymous")) (Fixture.world ∅)
     = (Panic, Fixture.world ∅)
  /\ serve (CheckToken (Fixture.env 5 None) Fixture.store
              (Fixture.bearer_request "Bearer numeric")) (Fixture.world ∅)
     = (Panic, Fixture.world ∅)
  /\ exists rep,
      reply_of (CheckToken (Fixture.env 5 None) Fixture.store
                  (Fixture.bearer_request "Bearer good")) (Fixture.world ∅)
      = Responded rep.
Proof.
  split; [|split; [|split]].
  - refine (proj1 (proj2 (CheckToken_assertions (Fixture.env 5 None) Fixture.store
              (Fixture.bearer_request "Bearer struct") (Fixture.world ∅)
              {| Valid := true;
                 TokenClaims := StructClaims {| ClaimsUserUUID := "u-7";
                                                ClaimsExpiresAt := 0 |} |} _ eq_refl)) _).
    + vm_compute. discriminate.
    + intros (m & uuid & Hclaims & _). discriminate Hclaims.
  - refine (proj1 (proj2 (CheckToken_assertions (Fixture.env 5 None) Fixture.store
              (Fixture.bearer_request "Bearer anonymous") (Fixture.world ∅)
              {| Valid := true; TokenClaims := MapClaims {[ "exp" := IInt 0 ]} |}
              _ eq_refl)) _).
    + vm_compute. discriminate.
    + intros (m & uuid & Hclaims & Hget). cbn [TokenClaims] in Hclaims.
      injection Hclaims as <-. vm_compute in Hget. discriminate Hget.
  - refine (proj1 (proj2 (CheckToken_assertions (Fixture.env 5 None) Fixture.store
              (Fixture.bearer_request "Bearer numeric") (Fixture.world ∅)
              {| Valid := true; TokenClaims := MapClaims {[ "user_uuid" := IInt 7 ]} |}
              _ eq_refl)) _).
    + vm_compute. discriminate.
    + intros (m & uuid & Hclaims & Hget). cbn [TokenClaims] in Hclaims.
      injection Hclaims as <-. vm_compute in Hget. discriminate Hget.
  - refine (proj1 (CheckToken_assertions (Fixture.env 5 None) Fixture.store
              (Fixture.bearer_request "Bearer good") (Fixture.world ∅)
              {| Valid := true;
                 TokenClaims := MapClaims {[ "user_uuid" := IString "u-7" ]} |}
              _ eq_refl) _).
    + vm_compute. discriminate.
    + exists {[ "user_uuid" := IString "u-7" ]}, "u-7". split; reflexivity.
Defined.

(** * Further properties of the handlers *)

(** ** Walking every path of a handler *)

Ltac path_step :=
  match goal with
  | |- context [isMailVerified ?env ?e ?w] =>
      let Hv := fresh "Hverified" in
      destruct (isMailVerified_spec env e w) as [[Hv ->]|[Hv [? ->]]]
  | |- context [rand_Intn ?env _ ?w] => rewrite (rand_Intn_code env w)
  | |- context [negb ?b] => destruct b eqn:?
  | |- context [match ?x with _ => _ end] =>
      lazymatch x with
      | context [match _ with _ => _ end] => fail
      | _ => destruct x eqn:?
      end
  end.

Ltac paths :=
  repeat (run; cbv zeta; cbn [negb from_option id as_string]; path_step);
  run; cbv zeta; cbn [negb from_option id as_string].

Ltac recall :=
  repeat match goal with
         | H : ?x = _ |- context [?x] => rewrite H
         end;
  reflexivity.

Ltac added :=
  cbn [fst snd cache trace];
  rewrite <- ?app_assoc; cbn [app];
  rewrite ?drop_app_length, ?drop_all.

(** ** Who touches the cache *)

(** X1.  Signup, Signin, RefreshToken, RecoverDelete and CheckToken only
    read the cache: whatever the outcome, the cache after the request is the
    cache before it.  In particular neither a completed signup nor a
    completed deletion removes the marker [verified]. *)
Theorem readers_keep_cache (env : Env) (s : Store) (r : Request) (w : World) :
  cache (after (Signup env s r) w) = cache w
  /\ cache (after (Signin env s r) w) = cache w
  /\ cache (after (RefreshToken env s r) w) = cache w
  /\ cache (after (RecoverDelete env s r) w) = cache w
  /\ cache (after (CheckToken env s r) w) = cache w.
Proof.
  unfold after. repeat split.
  - unfold Signup, notifyAdminEmail. paths; reflexivity.
  - unfold Signin. paths; reflexivity.
  - unfold RefreshToken. paths; reflexivity.
  - unfold RecoverDelete. paths; reflexivity.
  - unfold CheckToken, CheckToken_from. paths; reflexivity.
Qed.

(** X2.  The three handlers that write the cache write one entry only, the
    one of the email in the request: every other key reads after the request
    as it did before. *)
Theorem writers_touch_one_entry (env : Env) (s : Store) (r : Request) (w : World)
        (k : string) :
  ((forall signup, json_DecodeAuthEmail env (Body r) = Ok signup -> Email signup <> k) ->
   cache (after (CreateCode env s r) w) !! k = cache w !! k
   /\ cache (after (CreateDeleteCode env s r) w) !! k = cache w !! k)
  /\ (FormValue r "email" <> k ->
      cache (after (VerifyCode env r) w) !! k = cache w !! k).
Proof.
  unfold after. split.
  - intros Hother. split.
    + unfold CreateCode. paths; try reflexivity;
        cbn [snd cache]; apply lookup_insert_ne; apply Hother; reflexivity.
    + unfold CreateDeleteCode. paths; try reflexivity;
        cbn [snd cache]; apply lookup_insert_ne; apply Hother; reflexivity.
  - intros Hother. unfold VerifyCode. paths; try reflexivity.
    cbn [snd cache]. apply lookup_insert_ne. exact Hother.
Qed.

Lemma writers_touch_one_entry_witness :
  cache (after (CreateCode (Fixture.env 5 None) Fixture.store
                  (Fixture.request "bob@x.com" ∅ ∅ ∅))
               (Fixture.world {[ "carol@x.com" := IString "verified" ]}))
    !! "carol@x.com" = Some (IString "verified")
  /\ cache (after (VerifyCode (Fixture.env 5 None)
                     (Fixture.request "" {[ "code" := "123456" ]}
                                      {[ "email" := "bob@x.com" ]} ∅))
                  (Fixture.world {[ "bob@x.com" := IString "123456";
                                    "carol@x.com" := IString "654321" ]}))
       !! "carol@x.com" = Some (IString "654321").
Proof.
  split.
  - refine (eq_trans (proj1 (proj1 (writers_touch_one_entry (Fixture.env 5 None)
              Fixture.store (Fixture.request "bob@x.com" ∅ ∅ ∅)
              (Fixture.world {[ "carol@x.com" := IString "verified" ]})
              "carol@x.com") _)) _).
    + intros signup [= <-]. vm_compute. discriminate.
    + reflexivity.
  - refine (eq_trans (proj2 (writers_touch_one_entry (Fixture.env 5 None)
              Fixture.store
              (Fixture.request "" {[ "code" := "123456" ]} {[ "email" := "bob@x.com" ]} ∅)
              (Fixture.world {[ "bob@x.com" := IString "123456";
                                "carol@x.com" := IString "654321" ]})
              "carol@x.com") _) _).
    + vm_compute. discriminate.
    + reflexivity.
Defined.

(** ** Who writes user records *)

(** X3.  [app.CreateUser] is called by Signup only and [Users().Delete] by
    RecoverDelete only: the code-request handlers, VerifyCode, Signin,
    RefreshToken and CheckToken never create or delete a user, Signup never
    deletes one and RecoverDelete never creates one. *)
Theorem user_writes_are_confined (env : Env) (s : Store) (r : Request) (w : World) :
  makes_no is_user_write (CreateCode env s r) w
  /\ makes_no is_user_write (CreateDeleteCode env s r) w
  /\ makes_no is_user_write (VerifyCode env r) w
  /\ makes_no is_user_write (Signin env s r) w
  /\ makes_no is_user_write (RefreshToken env s r) w
  /\ makes_no is_user_write (CheckToken env s r) w
  /\ makes_no is_user_delete (Signup env s r) w
  /\ makes_no is_user_create (RecoverDelete env s r) w.
Proof.
  unfold makes_no, calls. repeat split.
  - unfold CreateCode. paths; added; repeat constructor.
  - unfold CreateDeleteCode. paths; added; repeat constructor.
  - unfold VerifyCode. paths; added; repeat constructor.
  - unfold Signin. paths; added; repeat constructor.
  - unfold RefreshToken. paths; added; repeat constructor.
  - unfold CheckToken, CheckToken_from. paths; added; repeat constructor.
  - unfold Signup, notifyAdminEmail. paths; added; repeat constructor.
  - unfold RecoverDelete. paths; added; repeat constructor.
Qed.

(** ** Code requests that stop at the account check *)

(** X4.  No code is stored or mailed for an email that fails the account
    check: [CreateCode] for an email that already has an account, and
    [CreateDeleteCode] for an email without one, leave the cache as it was and
    call neither [c.Set] nor the mailer.  The same holds for both when the
    body does not decode. *)
Theorem no_code_without_account_check (env : Env) (s : Store) (r : Request) (w : World) :
  (forall signup user,
      json_DecodeAuthEmail env (Body r) = Ok signup ->
      Users_FindByEmail s (Email signup) = Ok user ->
      cache (after (CreateCode env s r) w) = cache w
      /\ calls (CreateCode env s r) w = [EvUsersFindByEmail (Email signup)])
  /\ (forall signup err,
         json_DecodeAuthEmail env (Body r) = Ok signup ->
         Users_FindByEmail s (Email signup) = Err err ->
         cache (after (CreateDeleteCode env s r) w) = cache w
         /\ calls (CreateDeleteCode env s r) w = [EvUsersFindByEmail (Email signup)])
  /\ (forall err,
         json_DecodeAuthEmail env (Body r) = Err err ->
         serve (CreateCode env s r) w
         = (Responded (RespondWithError StatusBadRequest (InvalidRequestPayload env)), w)
         /\ serve (CreateDeleteCode env s r) w
            = (Responded (RespondWithError StatusBadRequest (InvalidRequestPayload env)), w)).
Proof.
  unfold after, calls. split; [|split].
  - intros signup user Hdec Hfind. unfold CreateCode. rewrite Hdec. run.
    rewrite Hfind. added. split; reflexivity.
  - intros signup err Hdec Hfind. unfold CreateDeleteCode. rewrite Hdec. run.
    rewrite Hfind. added. split; reflexivity.
  - intros err Hdec. unfold CreateCode, CreateDeleteCode. rewrite Hdec.
    split; reflexivity.
Qed.

Lemma no_code_without_account_check_witness :
  (cache (after (CreateCode (Fixture.env 5 None) Fixture.store
                   (Fixture.request "alice@x.com" ∅ ∅ ∅)) (Fixture.world ∅)) = ∅
   /\ calls (CreateCode (Fixture.env 5 None) Fixture.store
               (Fixture.request "alice@x.com" ∅ ∅ ∅)) (Fixture.world ∅)
      = [EvUsersFindByEmail "alice@x.com"])
  /\ (cache (after (CreateDeleteCode (Fixture.env 5 None) Fixture.store
                      (Fixture.request "bob@x.com" ∅ ∅ ∅)) (Fixture.world ∅)) = ∅
      /\ calls (CreateDeleteCode (Fixture.env 5 None) Fixture.store
                  (Fixture.request "bob@x.com" ∅ ∅ ∅)) (Fixture.world ∅)
         = [EvUsersFindByEmail "bob@x.com"]).
Proof.
  split.
  - apply (proj1 (no_code_without_account_check (Fixture.env 5 None) Fixture.store
                    (Fixture.request "alice@x.com" ∅ ∅ ∅) (Fixture.world ∅))
             {| Email := "alice@x.com" |} Fixture.alice); reflexivity.
  - apply (proj1 (proj2 (no_code_without_account_check (Fixture.env 5 None)
                    Fixture.store (Fixture.request "bob@x.com" ∅ ∅ ∅) (Fixture.world ∅)))
             {| Email := "bob@x.com" |} (ErrOther "record not found")); reflexivity.
Defined.

(** ** Signup after the gate *)

Ltac refute_status :=
  let H := fresh in
  intros H; exfalso; vm_compute in H; discriminate H.

(** X5.  Signup answers 200 exactly when the payload decodes, its email is
    verified, the validator accepts it, the store knows no account for the
    converted email and [app.CreateUser] succeeds.  The answer is then the
    signup-success message; the mail to the administrator plays no part in
    it, so a failing mailer does not fail the signup. *)
Theorem Signup_succeeds_iff (env : Env) (s : Store) (r : Request) (w : World) :
  (succeeds (Signup env s r) w
   <-> exists userSignup createdUser err,
        json_DecodeUserSignup env (Body r) = Ok (Some userSignup)
        /\ verified_in w (SignupEmail userSignup)
        /\ app_PayloadValidatorSignup env userSignup = ValidationPassed
        /\ Users_FindByEmail s (DTOEmail (model_ConvertUserDTO env userSignup)) = Err err
        /\ app_CreateUser env s (model_ConvertUserDTO env userSignup) = Ok createdUser)
  /\ (succeeds (Signup env s r) w ->
      reply_of (Signup env s r) w = Responded (success_response env signupSuccess)).
Proof.
  split; [split|].
  - unfold succeeds, reply_of, Signup, notifyAdminEmail.
    paths; cbn [fst status_of status_code]; try refute_status.
    all: intros _; do 3 eexists; repeat split; first [reflexivity|eassumption].
  - intros (u & cu & err & Hdec & Hv & Hval & Hfind & Hcreate).
    unfold succeeds, reply_of, Signup, notifyAdminEmail. rewrite Hdec. run.
    destruct (isMailVerified_spec env (SignupEmail u) w) as [[_ ->]|[Hnot _]];
      [|contradiction].
    rewrite Hval. run. rewrite Hfind, Hcreate. reflexivity.
  - unfold succeeds, reply_of, Signup, notifyAdminEmail.
    paths; cbn [fst status_of status_code]; try refute_status.
    all: reflexivity.
Qed.

Lemma Signup_succeeds_iff_witness :
  succeeds (Signup (Fixture.env 5 (Some (ErrOther "smtp down"))) Fixture.store
              (Fixture.request "bob@x.com" ∅ ∅ ∅))
           (Fixture.world {[ "bob@x.com" := IString "verified" ]})
  /\ reply_of (Signup (Fixture.env 5 (Some (ErrOther "smtp down"))) Fixture.store
                 (Fixture.request "bob@x.com" ∅ ∅ ∅))
              (Fixture.world {[ "bob@x.com" := IString "verified" ]})
     = Responded (success_response (Fixture.env 5 (Some (ErrOther "smtp down")))
                                   signupSuccess).
Proof.
  assert (Hok : succeeds (Signup (Fixture.env 5 (Some (ErrOther "smtp down")))
                            Fixture.store (Fixture.request "bob@x.com" ∅ ∅ ∅))
                         (Fixture.world {[ "bob@x.com" := IString "verified" ]})).
  { apply (proj1 (Signup_succeeds_iff (Fixture.env 5 (Some (ErrOther "smtp down")))
                    Fixture.store (Fixture.request "bob@x.com" ∅ ∅ ∅)
                    (Fixture.world {[ "bob@x.com" := IString "verified" ]}))).
    exists {| SignupName := "Bob"; SignupEmail := "bob@x.com";
              SignupMasterPassword := "secret" |},
           {| UserID := 8; UserUUID := "u-8"; UserName := "Bob";
              UserEmail := "bob@x.com"; UserSchema := "user8" |},
           (ErrOther "record not found").
    repeat split; reflexivity. }
  split; [exact Hok|].
  apply (proj2 (Signup_succeeds_iff (Fixture.env 5 (Some (ErrOther "smtp down")))
                  Fixture.store (Fixture.request "bob@x.com" ∅ ∅ ∅)
                  (Fixture.world {[ "bob@x.com" := IString "verified" ]}))).
  exact Hok.
Defined.

(** X6.  For a verified email the validator runs before the store is asked
    anything: field errors are answered with 400 and the list that
    [GetErrors] makes of them, and an error of another dynamic type panics
    at the unguarded assertion of line 191; in both cases no call was made. *)
Theorem Signup_validation_first (env : Env) (s : Store) (r : Request) (w : World)
        (userSignup : UserSignup) :
  json_DecodeUserSignup env (Body r) = Ok (Some userSignup) ->
  verified_in w (SignupEmail userSignup) ->
  (forall fields,
      app_PayloadValidatorSignup env userSignup = ValidationErrors fields ->
      serve (Signup env s r) w
      = (Responded (RespondWithErrors StatusBadRequest (InvalidRequestPayload env)
                                      (GetErrors env fields)), w))
  /\ (forall err,
         app_PayloadValidatorSignup env userSignup = ValidationOther err ->
         serve (Signup env s r) w = (Panic, w)).
Proof.
  intros Hdec Hv. unfold Signup. rewrite Hdec. run.
  destruct (isMailVerified_spec env (SignupEmail userSignup) w) as [[_ ->]|[Hnot _]];
    [|contradiction].
  split.
  - intros fields ->. reflexivity.
  - intros err ->. reflexivity.
Qed.

(** X7.  When [app.CreateUser] fails, Signup answers 500 with the text of
    that error, and the administrator is not mailed: the calls of the
    request are the account lookup and the failed creation. *)
Theorem Signup_persistence_failure (env : Env) (s : Store) (r : Request) (w : World)
        (userSignup : UserSignup) (err cerr : error) :
  json_DecodeUserSignup env (Body r) = Ok (Some userSignup) ->
  verified_in w (SignupEmail userSignup) ->
  app_PayloadValidatorSignup env userSignup = ValidationPassed ->
  let userDTO := model_ConvertUserDTO env userSignup in
  Users_FindByEmail s (DTOEmail userDTO) = Err err ->
  app_CreateUser env s userDTO = Err cerr ->
  answers (Signup env s r) w StatusInternalServerError (Error cerr)
  /\ calls (Signup env s r) w = [EvUsersFindByEmail (DTOEmail userDTO);
                                 EvCreateUser userDTO].
Proof.
  intros Hdec Hv Hval userDTO Hfind Hcreate. subst userDTO.
  unfold answers, reply_of, calls, Signup. rewrite Hdec. run.
  destruct (isMailVerified_spec env (SignupEmail userSignup) w) as [[_ ->]|[Hnot _]];
    [|contradiction].
  rewrite Hval. run. rewrite Hfind, Hcreate. added. split; reflexivity.
Qed.

Lemma Signup_validation_first_witness :
  serve (Signup (Faults.env (ValidationErrors ["Name"]) ValidationPassed
                   (Ok Fixture.alice) (Ok (Faults.cookie, "key")) (Ok Faults.cookie))
                Fixture.store (Fixture.request "bob@x.com" ∅ ∅ ∅))
        (Fixture.world {[ "bob@x.com" := IString "verified" ]})
  = (Responded (RespondWithErrors StatusBadRequest "Invalid request payload" ["Name"]),
     Fixture.world {[ "bob@x.com" := IString "verified" ]})
  /\ serve (Signup (Faults.env (ValidationOther (ErrOther "invalid validation"))
                      ValidationPassed (Ok Fixture.alice) (Ok (Faults.cookie, "key"))
                      (Ok Faults.cookie))
                   Fixture.store (Fixture.request "bob@x.com" ∅ ∅ ∅))
           (Fixture.world {[ "bob@x.com" := IString "verified" ]})
     = (Panic, Fixture.world {[ "bob@x.com" := IString "verified" ]}).
Proof.
  split.
  - refine (proj1 (Signup_validation_first
             (Faults.env (ValidationErrors ["Name"]) ValidationPassed
                (Ok Fixture.alice) (Ok (Faults.cookie, "key")) (Ok Faults.cookie))
             Fixture.store (Fixture.request "bob@x.com" ∅ ∅ ∅)
             (Fixture.world {[ "bob@x.com" := IString "verified" ]})
             Faults.bob eq_refl _) ["Name"] _);
      reflexivity.
  - refine (proj2 (Signup_validation_first
             (Faults.env (ValidationOther (ErrOther "invalid validation"))
                ValidationPassed (Ok Fixture.alice) (Ok (Faults.cookie, "key"))
                (Ok Faults.cookie))
             Fixture.store (Fixture.request "bob@x.com" ∅ ∅ ∅)
             (Fixture.world {[ "bob@x.com" := IString "verified" ]})
             Faults.bob eq_refl _) (ErrOther "invalid validation") _);
      reflexivity.
Defined.

Lemma Signup_persistence_failure_witness :
  answers (Signup (Faults.env ValidationPassed ValidationPassed
                     (Err (ErrOther "database is down")) (Ok (Faults.cookie, "key"))
                     (Ok Faults.cookie))
                  Fixture.store (Fixture.request "bob@x.com" ∅ ∅ ∅))
          (Fixture.world {[ "bob@x.com" := IString "verified" ]})
          StatusInternalServerError "database is down"
  /\ calls (Signup (Faults.env ValidationPassed ValidationPassed
                      (Err (ErrOther "database is down")) (Ok (Faults.cookie, "key"))
                      (Ok Faults.cookie))
                   Fixture.store (Fixture.request "bob@x.com" ∅ ∅ ∅))
           (Fixture.world {[ "bob@x.com" := IString "verified" ]})
     = [EvUsersFindByEmail "bob@x.com";
        EvCreateUser {| DTOName := "Bob"; DTOEmail := "bob@x.com";
                        DTOMasterPassword := "secret" |}].
Proof.
  apply (Signup_persistence_failure
           (Faults.env ValidationPassed ValidationPassed
              (Err (ErrOther "database is down")) (Ok (Faults.cookie, "key"))
              (Ok Faults.cookie))
           Fixture.store (Fixture.request "bob@x.com" ∅ ∅ ∅)
           (Fixture.world {[ "bob@x.com" := IString "verified" ]})
           Faults.bob (ErrOther "record not found") (ErrOther "database is down"));
    reflexivity.
Defined.

(** ** Signin *)

(** X8.  Every way in which [FindByCredentials] can fail gives the same
    answer, 401 with the one login-error text, so the reply does not tell an
    unknown email from a wrong password.  The subscription store is not
    asked and no token is made: the credential lookup is the only call.
    A body that does not decode is answered with 422 and field errors with
    400, both before the store is asked anything. *)
Theorem Signin_rejections (env : Env) (s : Store) (r : Request) (w : World) :
  (forall err,
      json_DecodeAuthLoginDTO env (Body r) = Err err ->
      serve (Signin env s r) w
      = (Responded (RespondWithError StatusUnprocessableEntity (InvalidJSON env)), w))
  /\ (forall loginDTO,
         json_DecodeAuthLoginDTO env (Body r) = Ok loginDTO ->
         (forall fields,
             app_PayloadValidatorLogin env loginDTO = ValidationErrors fields ->
             serve (Signin env s r) w
             = (Responded (RespondWithErrors StatusBadRequest (InvalidRequestPayload env)
                                             (GetErrors env fields)), w))
         /\ (forall err,
                app_PayloadValidatorLogin env loginDTO = ValidationPassed ->
                Users_FindByCredentials s (LoginEmail loginDTO) (MasterPassword loginDTO)
                = Err err ->
                answers (Signin env s r) w StatusUnauthorized userLoginErr
                /\ calls (Signin env s r) w
                   = [EvUsersFindByCredentials (LoginEmail loginDTO)
                                               (MasterPassword loginDTO)])).
Proof.
  unfold answers, reply_of, calls, Signin. split.
  - intros err ->. reflexivity.
  - intros loginDTO ->. split.
    + intros fields ->. reflexivity.
    + intros err -> Hcred. run. rewrite Hcred. added. split; reflexivity.
Qed.

Lemma Signin_rejections_witness :
  serve (Signin (Faults.env ValidationPassed ValidationPassed (Ok Fixture.alice)
                   (Ok (Faults.cookie, "key")) (Ok Faults.cookie))
                Fixture.store (Fixture.request "{" ∅ ∅ ∅)) (Fixture.world ∅)
  = (Responded (RespondWithError StatusUnprocessableEntity "Invalid json provided"),
     Fixture.world ∅)
  /\ serve (Signin (Faults.env ValidationPassed (ValidationErrors ["Email"])
                      (Ok Fixture.alice) (Ok (Faults.cookie, "key")) (Ok Faults.cookie))
                   Fixture.store (Fixture.request "" ∅ ∅ ∅)) (Fixture.world ∅)
     = (Responded (RespondWithErrors StatusBadRequest "Invalid request payload" ["Email"]),
        Fixture.world ∅)
  /\ (answers (Signin (Fixture.env 5 None) Fixture.store
                 (Fixture.request "mallory@x.com" ∅ ∅ ∅)) (Fixture.world ∅)
              StatusUnauthorized userLoginErr
      /\ calls (Signin (Fixture.env 5 None) Fixture.store
                  (Fixture.request "mallory@x.com" ∅ ∅ ∅)) (Fixture.world ∅)
         = [EvUsersFindByCredentials "mallory@x.com" "secret"]).
Proof.
  split; [|split].
  - apply (proj1 (Signin_rejections
             (Faults.env ValidationPassed ValidationPassed (Ok Fixture.alice)
                (Ok (Faults.cookie, "key")) (Ok Faults.cookie))
             Fixture.store (Fixture.request "{" ∅ ∅ ∅) (Fixture.world ∅))
             (ErrOther "unexpected EOF")).
    reflexivity.
  - apply (proj1 (proj2 (Signin_rejections
             (Faults.env ValidationPassed (ValidationErrors ["Email"])
                (Ok Fixture.alice) (Ok (Faults.cookie, "key")) (Ok Faults.cookie))
             Fixture.store (Fixture.request "" ∅ ∅ ∅) (Fixture.world ∅))
             {| LoginEmail := ""; MasterPassword := "secret" |} eq_refl) ["Email"]).
    reflexivity.
  - apply (proj2 (proj2 (Signin_rejections (Fixture.env 5 None) Fixture.store
             (Fixture.request "mallory@x.com" ∅ ∅ ∅) (Fixture.world ∅))
             {| LoginEmail := "mallory@x.com"; MasterPassword := "secret" |} eq_refl)
             (ErrOther "record not found"));
      reflexivity.
Defined.

(** X9.  Signin answers 200 exactly when the body decodes, the validator
    accepts it, the store accepts the credentials and [app.CreateToken]
    succeeds.  The reply then carries the cookie and the transmission key
    that [app.CreateToken] made for the user the store returned, and the
    subscription was looked up under that user's stored email. *)
Theorem Signin_succeeds_iff (env : Env) (s : Store) (r : Request) (w : World) :
  (succeeds (Signin env s r) w
   <-> exists loginDTO user cookie key,
        json_DecodeAuthLoginDTO env (Body r) = Ok loginDTO
        /\ app_PayloadValidatorLogin env loginDTO = ValidationPassed
        /\ Users_FindByCredentials s (LoginEmail loginDTO) (MasterPassword loginDTO)
           = Ok user
        /\ app_CreateToken env user = Ok (cookie, key))
  /\ (forall loginDTO user cookie key,
         json_DecodeAuthLoginDTO env (Body r) = Ok loginDTO ->
         app_PayloadValidatorLogin env loginDTO = ValidationPassed ->
         Users_FindByCredentials s (LoginEmail loginDTO) (MasterPassword loginDTO)
         = Ok user ->
         app_CreateToken env user = Ok (cookie, key) ->
         reply_of (Signin env s r) w
         = Responded (RespondWithToken StatusOK cookie
             {| Type_ := tier_of (Subscriptions_FindByEmail s (UserEmail user));
                TransmissionKey := key;
                EmbeddedUserDTO := model_ToUserDTO env user;
                EmbeddedSubscriptionAuthDTO :=
                  model_ToSubscriptionAuthDTO env
                    (value_of (Subscriptions_FindByEmail s (UserEmail user))) |})
         /\ calls (Signin env s r) w
            = [EvUsersFindByCredentials (LoginEmail loginDTO) (MasterPassword loginDTO);
               EvSubscriptionsFindByEmail (UserEmail user)]).
Proof.
  assert (Hrun : forall loginDTO user cookie key,
             json_DecodeAuthLoginDTO env (Body r) = Ok loginDTO ->
             app_PayloadValidatorLogin env loginDTO = ValidationPassed ->
             Users_FindByCredentials s (LoginEmail loginDTO) (MasterPassword loginDTO)
             = Ok user ->
             app_CreateToken env user = Ok (cookie, key) ->
             reply_of (Signin env s r) w
             = Responded (RespondWithToken StatusOK cookie
                 {| Type_ := tier_of (Subscriptions_FindByEmail s (UserEmail user));
                    TransmissionKey := key;
                    EmbeddedUserDTO := model_ToUserDTO env user;
                    EmbeddedSubscriptionAuthDTO :=
                      model_ToSubscriptionAuthDTO env
                        (value_of (Subscriptions_FindByEmail s (UserEmail user))) |})
             /\ calls (Signin env s r) w
                = [EvUsersFindByCredentials (LoginEmail loginDTO)
                                            (MasterPassword loginDTO);
                   EvSubscriptionsFindByEmail (UserEmail user)]).
  { intros loginDTO user cookie key Hdec Hval Hcred Htoken.
    unfold reply_of, calls, Signin. rewrite Hdec, Hval. run. rewrite Hcred, Htoken.
    added. destruct (Subscriptions_FindByEmail s (UserEmail user)); split; reflexivity. }
  split; [split|exact Hrun].
  - unfold succeeds, reply_of, Signin.
    paths; cbn [fst status_of status_code]; try refute_status.
    all: intros _; do 4 eexists; repeat split; first [reflexivity|eassumption].
  - intros (loginDTO & user & cookie & key & Hdec & Hval & Hcred & Htoken).
    unfold succeeds.
    rewrite (proj1 (Hrun loginDTO user cookie key Hdec Hval Hcred Htoken)).
    reflexivity.
Qed.

Lemma Signin_succeeds_iff_witness :
  succeeds (Signin (Fixture.env 5 None) Fixture.store
              (Fixture.request "alice@x.com" ∅ ∅ ∅)) (Fixture.world ∅)
  /\ calls (Signin (Fixture.env 5 None) Fixture.store
              (Fixture.request "alice@x.com" ∅ ∅ ∅)) (Fixture.world ∅)
     = [EvUsersFindByCredentials "alice@x.com" "secret";
        EvSubscriptionsFindByEmail "alice@x.com"].
Proof.
  split.
  - apply (proj1 (Signin_succeeds_iff (Fixture.env 5 None) Fixture.store
                    (Fixture.request "alice@x.com" ∅ ∅ ∅) (Fixture.world ∅))).
    exists {| LoginEmail := "alice@x.com"; MasterPassword := "secret" |},
           Fixture.alice, Faults.cookie, "key".
    repeat split; reflexivity.
  - apply (proj2 (Signin_succeeds_iff (Fixture.env 5 None) Fixture.store
                    (Fixture.request "alice@x.com" ∅ ∅ ∅) (Fixture.world ∅))
             {| LoginEmail := "alice@x.com"; MasterPassword := "secret" |}
             Fixture.alice Faults.cookie "key");
      reflexivity.
Defined.

(** ** RefreshToken before and after the user lookup *)

(** X10.  RefreshToken asks the store only on behalf of a token that parsed
    and is flagged valid.  A cookie error other than [http.ErrNoCookie] is
    answered with a bare 400 and a parsed token that is not valid with a
    bare 401, both without any call; and whenever the request made a call,
    the cookie was there, its value parsed into a valid token, and the first
    call was the lookup of the user UUID of the claims. *)
Theorem RefreshToken_guards (env : Env) (s : Store) (r : Request) (w : World) :
  (forall err,
      CookieOf r "passwall_token" = Err err -> err <> ErrNoCookie ->
      serve (RefreshToken env s r) w = (Responded (WriteHeader StatusBadRequest), w))
  /\ (forall c tkn claims,
         CookieOf r "passwall_token" = Ok c ->
         jwt_ParseWithClaims env (CookieValue c) (jwtKey env) = Ok (tkn, claims) ->
         Valid tkn = false ->
         serve (RefreshToken env s r) w = (Responded (WriteHeader StatusUnauthorized), w))
  /\ (calls (RefreshToken env s r) w <> [] ->
      exists c tkn claims,
        CookieOf r "passwall_token" = Ok c
        /\ jwt_ParseWithClaims env (CookieValue c) (jwtKey env) = Ok (tkn, claims)
        /\ Valid tkn = true
        /\ head (calls (RefreshToken env s r) w)
           = Some (EvUsersFindByUUID (ClaimsUserUUID claims))).
Proof.
  split; [|split].
  - intros err Hcookie Hne. unfold RefreshToken. rewrite Hcookie.
    rewrite bool_decide_eq_false_2 by exact Hne. reflexivity.
  - intros c tkn claims Hcookie Hparse Hvalid. unfold RefreshToken.
    rewrite Hcookie, Hparse, Hvalid. reflexivity.
  - unfold calls, RefreshToken.
    paths; added; try (intros H; exfalso; apply H; reflexivity).
    all: intros _; do 3 eexists; repeat split; first [reflexivity|eassumption|recall].
Qed.

Lemma RefreshToken_guards_witness :
  exists c tkn claims,
    CookieOf (Fixture.cookie_request "ghost") "passwall_token" = Ok c
    /\ jwt_ParseWithClaims (Fixture.env 5 None) (CookieValue c)
         (jwtKey (Fixture.env 5 None)) = Ok (tkn, claims)
    /\ Valid tkn = true
    /\ head (calls (RefreshToken (Fixture.env 5 None) Fixture.store
                      (Fixture.cookie_request "ghost")) (Fixture.world ∅))
       = Some (EvUsersFindByUUID (ClaimsUserUUID claims)).
Proof.
  apply (proj2 (proj2 (RefreshToken_guards (Fixture.env 5 None) Fixture.store
                  (Fixture.cookie_request "ghost") (Fixture.world ∅)))).
  vm_compute. discriminate.
Defined.

(** X11.  A reply of RefreshToken that sets a cookie has status 200 and an
    empty transmission key, and the user data in it are those of the user
    that the store returned for the UUID in the claims of the presented
    token. *)
Theorem RefreshToken_reply (env : Env) (s : Store) (r : Request) (w : World)
        (code : Z) (cookie : Cookie) (resp : AuthLoginResponse) :
  reply_of (RefreshToken env s r) w = Responded (RespondWithToken code cookie resp) ->
  code = StatusOK
  /\ TransmissionKey resp = ""
  /\ exists c tkn claims user,
      CookieOf r "passwall_token" = Ok c
      /\ jwt_ParseWithClaims env (CookieValue c) (jwtKey env) = Ok (tkn, claims)
      /\ Users_FindByUUID s (ClaimsUserUUID claims) = Ok user
      /\ EmbeddedUserDTO resp = model_ToUserDTO env user
      /\ calls (RefreshToken env s r) w
         = [EvUsersFindByUUID (ClaimsUserUUID claims);
            EvSubscriptionsFindByEmail (UserEmail user)].
Proof.
  unfold reply_of, calls, RefreshToken.
  paths; cbn [fst]; intros [= <- <- <-]; added.
  all: split; [reflexivity|]; split; [reflexivity|];
    do 4 eexists; repeat split; first [reflexivity|eassumption|recall].
Qed.

Lemma RefreshToken_reply_witness :
  StatusOK = StatusOK
  /\ TransmissionKey {| Type_ := "free"; TransmissionKey := "";
                        EmbeddedUserDTO := {| DTOName := "Alice";
                                              DTOEmail := "alice@x.com";
                                              DTOMasterPassword := "" |};
                        EmbeddedSubscriptionAuthDTO := None |} = ""
  /\ exists c tkn claims user,
      CookieOf (Fixture.cookie_request "jwt") "passwall_token" = Ok c
      /\ jwt_ParseWithClaims (Fixture.env 5 None) (CookieValue c)
           (jwtKey (Fixture.env 5 None)) = Ok (tkn, claims)
      /\ Users_FindByUUID Fixture.store (ClaimsUserUUID claims) = Ok user
      /\ EmbeddedUserDTO {| Type_ := "free"; TransmissionKey := "";
                            EmbeddedUserDTO := {| DTOName := "Alice";
                                                  DTOEmail := "alice@x.com";
                                                  DTOMasterPassword := "" |};
                            EmbeddedSubscriptionAuthDTO := None |}
         = model_ToUserDTO (Fixture.env 5 None) user
      /\ calls (RefreshToken (Fixture.env 5 None) Fixture.store
                  (Fixture.cookie_request "jwt")) (Fixture.world ∅)
         = [EvUsersFindByUUID (ClaimsUserUUID claims);
            EvSubscriptionsFindByEmail (UserEmail user)].
Proof.
  apply (RefreshToken_reply (Fixture.env 5 None) Fixture.store
           (Fixture.cookie_request "jwt") (Fixture.world ∅) StatusOK
           {| CookieName := "passwall_token"; CookieValue := "jwt2" |}).
  reflexivity.
Defined.

(** ** Account deletion after the gate *)

(** X12.  RecoverDelete answers 200 exactly when the email of the route is
    verified, the store finds its user and [Delete] reports no error.
    [Delete] is called with the ID and the schema of the user that was
    found; when it reports an error, the answer is 404 with the text of the
    error. *)
Theorem RecoverDelete_succeeds_iff (env : Env) (s : Store) (r : Request) (w : World) :
  let email := mux_Var r "email" in
  (succeeds (RecoverDelete env s r) w
   <-> verified_in w email
       /\ exists user,
           Users_FindByEmail s email = Ok user
           /\ Users_Delete s (UserID user) (UserSchema user) = None)
  /\ (forall user,
         verified_in w email ->
         Users_FindByEmail s email = Ok user ->
         calls (RecoverDelete env s r) w
         = [EvUsersFindByEmail email; EvUsersDelete (UserID user) (UserSchema user)])
  /\ (forall user err,
         verified_in w email ->
         Users_FindByEmail s email = Ok user ->
         Users_Delete s (UserID user) (UserSchema user) = Some err ->
         answers (RecoverDelete env s r) w StatusNotFound (Error err)).
Proof.
  intros email. subst email. split; [split|split].
  - unfold succeeds, reply_of, RecoverDelete.
    paths; cbn [fst status_of status_code]; try refute_status.
    all: intros _; split; [assumption|]; eexists;
      repeat split; first [reflexivity|eassumption].
  - intros (Hv & user & Hfind & Hdel).
    unfold succeeds, reply_of, RecoverDelete. run.
    destruct (isMailVerified_spec env (mux_Var r "email") w) as [[_ ->]|[Hnot _]];
      [|contradiction].
    rewrite Hfind. run. rewrite Hdel. reflexivity.
  - intros user Hv Hfind. unfold calls, RecoverDelete. run.
    destruct (isMailVerified_spec env (mux_Var r "email") w) as [[_ ->]|[Hnot _]];
      [|contradiction].
    rewrite Hfind. run.
    destruct (Users_Delete s (UserID user) (UserSchema user)); added; reflexivity.
  - intros user err Hv Hfind Hdel. unfold answers, reply_of, RecoverDelete. run.
    destruct (isMailVerified_spec env (mux_Var r "email") w) as [[_ ->]|[Hnot _]];
      [|contradiction].
    rewrite Hfind. run. rewrite Hdel. reflexivity.
Qed.

Lemma RecoverDelete_succeeds_iff_witness :
  succeeds (RecoverDelete (Fixture.env 5 None) Fixture.store
              (Fixture.request "" {[ "email" := "alice@x.com" ]} ∅ ∅))
           (Fixture.world {[ "alice@x.com" := IString "verified" ]})
  /\ calls (RecoverDelete (Fixture.env 5 None) Fixture.store
              (Fixture.request "" {[ "email" := "alice@x.com" ]} ∅ ∅))
           (Fixture.world {[ "alice@x.com" := IString "verified" ]})
     = [EvUsersFindByEmail "alice@x.com"; EvUsersDelete 7 "user7"]
  /\ answers (RecoverDelete (Fixture.env 5 None)
                (Faults.store (Some (ErrOther "schema is locked")))
                (Fixture.request "" {[ "email" := "alice@x.com" ]} ∅ ∅))
             (Fixture.world {[ "alice@x.com" := IString "verified" ]})
             StatusNotFound "schema is locked".
Proof.
  split; [|split].
  - apply (proj1 (RecoverDelete_succeeds_iff (Fixture.env 5 None) Fixture.store
                    (Fixture.request "" {[ "email" := "alice@x.com" ]} ∅ ∅)
                    (Fixture.world {[ "alice@x.com" := IString "verified" ]}))).
    split; [reflexivity|]. exists Fixture.alice. split; reflexivity.
  - refine (proj1 (proj2 (RecoverDelete_succeeds_iff (Fixture.env 5 None) Fixture.store
                    (Fixture.request "" {[ "email" := "alice@x.com" ]} ∅ ∅)
                    (Fixture.world {[ "alice@x.com" := IString "verified" ]})))
             Fixture.alice _ _);
      reflexivity.
  - refine (proj2 (proj2 (RecoverDelete_succeeds_iff (Fixture.env 5 None)
                    (Faults.store (Some (ErrOther "schema is locked")))
                    (Fixture.request "" {[ "email" := "alice@x.com" ]} ∅ ∅)
                    (Fixture.world {[ "alice@x.com" := IString "verified" ]})))
             Fixture.alice (ErrOther "schema is locked") _ _ _);
      reflexivity.
Defined.

(** ** Code verification, further *)

Lemma VerifyCode_after (env : Env) (r : Request) (w : World) :
  cache (after (VerifyCode env r) w)
  = if decide (cache w !! FormValue r "email" = Some (IString (mux_Var r "code")))
    then <[FormValue r "email" := IString "verified"]> (cache w)
    else cache w.
Proof.
  unfold after, VerifyCode. run.
  destruct (cache w !! FormValue r "email") as [[cached| | |]|] eqn:Hget;
    cbn [as_string]; try (rewrite decide_False by congruence; reflexivity).
  destruct (String.eqb_spec (mux_Var r "code") cached) as [<-|Hne]; cbn [negb].
  - rewrite decide_True by reflexivity. reflexivity.
  - rewrite decide_False by congruence. reflexivity.
Qed.

Lemma VerifyCode_accepts (env : Env) (r : Request) (w : World) :
  cache w !! FormValue r "email" = Some (IString (mux_Var r "code")) ->
  reply_of (VerifyCode env r) w = Responded (success_response env verifySuccess).
Proof.
  intros Hget. unfold reply_of, VerifyCode. run. rewrite Hget. cbn [as_string].
  rewrite String.eqb_refl. reflexivity.
Qed.

(** X13.  VerifyCode answers 200 exactly when the cache holds, for the email
    of the form, a string equal to the code of the route.  A cached value
    that is not a string is answered with 500 "Server error!" and left in
    place: this assertion is guarded. *)
Theorem VerifyCode_succeeds_iff (env : Env) (r : Request) (w : World) :
  (succeeds (VerifyCode env r) w
   <-> cache w !! FormValue r "email" = Some (IString (mux_Var r "code")))
  /\ (forall v,
         cache w !! FormValue r "email" = Some v -> as_string v = None ->
         serve (VerifyCode env r) w
         = (Responded (RespondWithError StatusInternalServerError "Server error!"), w)).
Proof.
  split; [split|].
  - unfold succeeds, reply_of, VerifyCode. run.
    destruct (cache w !! FormValue r "email") as [v|]; [|refute_status].
    destruct v as [cached| | |]; cbn [as_string]; try refute_status.
    destruct (String.eqb_spec (mux_Var r "code") cached) as [<-|Hne]; cbn [negb].
    + intros _. reflexivity.
    + refute_status.
  - intros Hget. unfold succeeds. rewrite (VerifyCode_accepts env r w Hget). reflexivity.
  - intros v Hget Hnot. unfold VerifyCode. run. rewrite Hget, Hnot. reflexivity.
Qed.

Lemma VerifyCode_succeeds_iff_witness :
  succeeds (VerifyCode (Fixture.env 5 None)
              (Fixture.request "" {[ "code" := "123456" ]} {[ "email" := "a@x.com" ]} ∅))
           (Fixture.world {[ "a@x.com" := IString "123456" ]})
  /\ serve (VerifyCode (Fixture.env 5 None)
              (Fixture.request "" {[ "code" := "123456" ]} {[ "email" := "a@x.com" ]} ∅))
           (Fixture.world {[ "a@x.com" := IInt 123456 ]})
     = (Responded (RespondWithError StatusInternalServerError "Server error!"),
        Fixture.world {[ "a@x.com" := IInt 123456 ]}).
Proof.
  split.
  - apply (proj1 (VerifyCode_succeeds_iff (Fixture.env 5 None)
             (Fixture.request "" {[ "code" := "123456" ]} {[ "email" := "a@x.com" ]} ∅)
             (Fixture.world {[ "a@x.com" := IString "123456" ]}))).
    reflexivity.
  - apply (proj2 (VerifyCode_succeeds_iff (Fixture.env 5 None)
             (Fixture.request "" {[ "code" := "123456" ]} {[ "email" := "a@x.com" ]} ∅)
             (Fixture.world {[ "a@x.com" := IInt 123456 ]})) (IInt 123456));
      reflexivity.
Defined.

(** X14.  A code verifies once.  After a successful verification the entry
    is the marker, so the same request sent again is answered with the
    mismatch error (unless the code is the word [verified] itself), and the
    email stays verified. *)
Theorem VerifyCode_once (env : Env) (r : Request) (w : World) (code : string) :
  cache w !! FormValue r "email" = Some (IString code) ->
  mux_Var r "code" = code ->
  code <> "verified" ->
  let w1 := after (VerifyCode env r) w in
  verified_in w1 (FormValue r "email")
  /\ answers (VerifyCode env r) w1 StatusBadRequest "Code doesn't match!"
  /\ verified_in (after (VerifyCode env r) w1) (FormValue r "email").
Proof.
  intros Hget Hcode Hne w1.
  assert (Hv1 : verified_in w1 (FormValue r "email")).
  { unfold verified_in, w1. rewrite VerifyCode_after, Hcode, decide_True by exact Hget.
    apply lookup_insert_eq. }
  split; [exact Hv1|]. split.
  - unfold answers, reply_of, VerifyCode. run. rewrite Hv1. cbn [as_string].
    rewrite Hcode. destruct (String.eqb_spec code "verified") as [Heq|_];
      [contradiction|reflexivity].
  - unfold verified_in. rewrite VerifyCode_after, Hcode.
    rewrite decide_False by (rewrite Hv1; congruence). exact Hv1.
Qed.

Lemma VerifyCode_once_witness :
  verified_in (after (VerifyCode (Fixture.env 5 None)
                 (Fixture.request "" {[ "code" := "123456" ]} {[ "email" := "a@x.com" ]} ∅))
                 (Fixture.world {[ "a@x.com" := IString "123456" ]})) "a@x.com"
  /\ answers (VerifyCode (Fixture.env 5 None)
                (Fixture.request "" {[ "code" := "123456" ]} {[ "email" := "a@x.com" ]} ∅))
             (after (VerifyCode (Fixture.env 5 None)
                (Fixture.request "" {[ "code" := "123456" ]} {[ "email" := "a@x.com" ]} ∅))
                (Fixture.world {[ "a@x.com" := IString "123456" ]}))
             StatusBadRequest "Code doesn't match!".
Proof.
  pose proof (VerifyCode_once (Fixture.env 5 None)
                (Fixture.request "" {[ "code" := "123456" ]} {[ "email" := "a@x.com" ]} ∅)
                (Fixture.world {[ "a@x.com" := IString "123456" ]}) "123456"
                eq_refl eq_refl ltac:(discriminate)) as H.
  cbv zeta in H. destruct H as (H1 & H2 & _). split; [exact H1|exact H2].
Defined.

(** X15.  Wrong guesses cost nothing: after any sequence of VerifyCode
    requests in which every submission for [email] carries a code other than
    the pending one, the pending code is still in the cache, and a request
    with the right code then succeeds.  The handler counts no attempts. *)
Theorem wrong_codes_keep_pending (env : Env) (rs : list Request) (w : World)
        (email code : string) :
  cache w !! email = Some (IString code) ->
  Forall (fun r => FormValue r "email" = email -> mux_Var r "code" <> code) rs ->
  let w' := after_all (map (VerifyCode env) rs) w in
  cache w' !! email = Some (IString code)
  /\ (forall r, submits r email code -> succeeds (VerifyCode env r) w').
Proof.
  intros Hget Hwrong w'.
  assert (Hkept : cache w' !! email = Some (IString code)).
  { unfold w'. clear w'. revert w Hget.
    induction Hwrong as [|r rs Hr _ IH]; intros w Hget; [exact Hget|].
    cbn [map after_all]. apply IH.
    rewrite VerifyCode_after.
    destruct (decide (cache w !! FormValue r "email"
                      = Some (IString (mux_Var r "code")))) as [Hhit|_];
      [|exact Hget].
    destruct (decide (FormValue r "email" = email)) as [Heq|Hother].
    - exfalso. apply (Hr Heq). rewrite Heq, Hget in Hhit. congruence.
    - rewrite lookup_insert_ne by exact Hother. exact Hget. }
  split; [exact Hkept|].
  intros r [Hemail Hcode]. unfold succeeds.
  rewrite VerifyCode_accepts; [reflexivity|].
  rewrite Hemail, Hcode. exact Hkept.
Qed.

Lemma wrong_codes_keep_pending_witness :
  cache (after_all (map (VerifyCode (Fixture.env 5 None))
                      [Fixture.request "" {[ "code" := "000000" ]}
                                       {[ "email" := "a@x.com" ]} ∅;
                       Fixture.request "" {[ "code" := "111111" ]}
                                       {[ "email" := "a@x.com" ]} ∅;
                       Fixture.request "" {[ "code" := "123456" ]}
                                       {[ "email" := "b@x.com" ]} ∅])
                   (Fixture.world {[ "a@x.com" := IString "123456" ]}))
    !! "a@x.com" = Some (IString "123456").
Proof.
  refine (proj1 (wrong_codes_keep_pending (Fixture.env 5 None) _
                   (Fixture.world {[ "a@x.com" := IString "123456" ]})
                   "a@x.com" "123456" eq_refl _)).
  repeat constructor; vm_compute; intros; discriminate.
Defined.

(** ** From the code request to the account *)

Lemma fresh_code_not_marker (env : Env) : fresh_code env <> "verified".
Proof.
  destruct (fresh_code_six_digits env) as (code & n & Hcode & _ & _ & Hlen & _).
  injection Hcode as <-. intros Heq. rewrite Heq in Hlen. discriminate Hlen.
Qed.

Lemma code_then_verify (env : Env) (r : Request) (w : World) (email : string) :
  cache w !! email = Some (IString (fresh_code env)) ->
  submits r email (fresh_code env) ->
  reply_of (VerifyCode env r) w = Responded (success_response env verifySuccess)
  /\ verified_in (after (VerifyCode env r) w) email.
Proof.
  intros Hget [Hemail Hcode].
  assert (Hhit : cache w !! FormValue r "email" = Some (IString (mux_Var r "code")))
    by (rewrite Hemail, Hcode; exact Hget).
  split; [apply VerifyCode_accepts; exact Hhit|].
  unfold verified_in. rewrite VerifyCode_after, decide_True by exact Hhit.
  rewrite Hemail. apply lookup_insert_eq.
Qed.

Lemma Signup_accepts (env : Env) (s : Store) (r : Request) (w : World)
      (userSignup : UserSignup) (err : error) (createdUser : User) :
  json_DecodeUserSignup env (Body r) = Ok (Some userSignup) ->
  verified_in w (SignupEmail userSignup) ->
  app_PayloadValidatorSignup env userSignup = ValidationPassed ->
  Users_FindByEmail s (DTOEmail (model_ConvertUserDTO env userSignup)) = Err err ->
  app_CreateUser env s (model_ConvertUserDTO env userSignup) = Ok createdUser ->
  reply_of (Signup env s r) w = Responded (success_response env signupSuccess)
  /\ creates_user (Signup env s r) w.
Proof.
  intros Hdec Hv Hval Hfind Hcreate.
  unfold creates_user, reply_of, calls, Signup, notifyAdminEmail. rewrite Hdec. run.
  destruct (isMailVerified_spec env (SignupEmail userSignup) w) as [[_ ->]|[Hnot _]];
    [|contradiction].
  rewrite Hval. run. rewrite Hfind, Hcreate. added.
  split; [reflexivity|]. apply Exists_cons_tl, Exists_cons_hd. reflexivity.
Qed.

Lemma RecoverDelete_accepts (env : Env) (s : Store) (r : Request) (w : World)
      (user : User) :
  verified_in w (mux_Var r "email") ->
  Users_FindByEmail s (mux_Var r "email") = Ok user ->
  Users_Delete s (UserID user) (UserSchema user) = None ->
  succeeds (RecoverDelete env s r) w.
Proof.
  intros Hv Hfind Hdel. unfold succeeds, reply_of, RecoverDelete. run.
  destruct (isMailVerified_spec env (mux_Var r "email") w) as [[_ ->]|[Hnot _]];
    [|contradiction].
  rewrite Hfind. run. rewrite Hdel. reflexivity.
Qed.

Lemma issues_code_cache (env : Env) (s : Store) (r : Request) (w w' : World)
      (email : string) :
  issues_code env s r w email w' ->
  cache w' = <[email := IString (fresh_code env)]> (cache w).
Proof.
  intros (signup & Hdec & <- & [[[err Hfind] ->]|[[user Hfind] ->]]); unfold after.
  - rewrite (CreateCode_run env s r w signup err Hdec Hfind). reflexivity.
  - rewrite (CreateDeleteCode_run env s r w signup user Hdec Hfind). reflexivity.
Qed.

Lemma gate_closed (env : Env) (w : World) (email : string) :
  ~ verified_in w email ->
  (forall s r userSignup,
      json_DecodeUserSignup env (Body r) = Ok (Some userSignup) ->
      SignupEmail userSignup = email ->
      answers (Signup env s r) w StatusUnauthorized "Email is not verified")
  /\ (forall s r,
         mux_Var r "email" = email ->
         answers (RecoverDelete env s r) w StatusUnauthorized "Email is not verified").
Proof.
  intros Hnot. unfold answers, reply_of. split.
  - intros s r u Hdec Hemail. unfold Signup. rewrite Hdec, Hemail. run.
    destruct (isMailVerified_spec env email w) as [[Hv _]|[_ [err ->]]];
      [contradiction|reflexivity].
  - intros s r Hemail. unfold RecoverDelete. rewrite Hemail. run.
    destruct (isMailVerified_spec env email w) as [[Hv _]|[_ [err ->]]];
      [contradiction|reflexivity].
Qed.



(** X17.  Asking for a new code withdraws a verification.  After a
    code request that got past the account check, for signup or for
    deletion, the email is not verified any more, whatever the cache held
    before: Signup and RecoverDelete for that email answer 401 until the new
    code is verified. *)
Theorem new_code_revokes_verification (env : Env) (s : Store) (r : Request)
        (w w1 : World) (email : string) :
  issues_code env s r w email w1 ->
  ~ verified_in w1 email
  /\ (forall s' r' userSignup,
         json_DecodeUserSignup env (Body r') = Ok (Some userSignup) ->
         SignupEmail userSignup = email ->
         answers (Signup env s' r') w1 StatusUnauthorized "Email is not verified")
  /\ (forall s' r',
         mux_Var r' "email" = email ->
         answers (RecoverDelete env s' r') w1 StatusUnauthorized "Email is not verified").
Proof.
  intros Hissued.
  assert (Hnot : ~ verified_in w1 email).
  { unfold verified_in. rewrite (issues_code_cache _ _ _ _ _ _ Hissued).
    rewrite lookup_insert_eq. intros [= Heq].
    exact (fresh_code_not_marker env Heq). }
  split; [exact Hnot|]. exact (gate_closed env w1 email Hnot).
Qed.

Lemma new_code_revokes_verification_witness :
  ~ verified_in (after (CreateDeleteCode (Fixture.env 5 None) Fixture.store
                          (Fixture.request "alice@x.com" ∅ ∅ ∅))
                       (Fixture.world {[ "alice@x.com" := IString "verified" ]}))
                "alice@x.com".
Proof.
  refine (proj1 (new_code_revokes_verification (Fixture.env 5 None) Fixture.store
                   (Fixture.request "alice@x.com" ∅ ∅ ∅)
                   (Fixture.world {[ "alice@x.com" := IString "verified" ]})
                   _ "alice@x.com" _)).
  exists {| Email := "alice@x.com" |}. split; [reflexivity|]. split; [reflexivity|].
  right. split; [exists Fixture.alice; reflexivity|reflexivity].
Defined.

(** X18.  One verification serves more than once.  Signup does not use up
    the marker: after a Signup request, whatever its outcome, an email that
    was verified can be deleted by RecoverDelete without a new code, as soon
    as the store knows its account. *)
Theorem marker_survives_signup (env : Env) (s s' : Store) (r r' : Request) (w : World)
        (user : User) :
  verified_in w (mux_Var r' "email") ->
  Users_FindByEmail s' (mux_Var r' "email") = Ok user ->
  Users_Delete s' (UserID user) (UserSchema user) = None ->
  verified_in (after (Signup env s r) w) (mux_Var r' "email")
  /\ succeeds (RecoverDelete env s' r') (after (Signup env s r) w).
Proof.
  intros Hv Hfind Hdel.
  assert (Hcache : cache (after (Signup env s r) w) = cache w).
  { unfold after, Signup, notifyAdminEmail. paths; reflexivity. }
  assert (Hv' : verified_in (after (Signup env s r) w) (mux_Var r' "email")).
  { unfold verified_in. rewrite Hcache. exact Hv. }
  split; [exact Hv'|].
  exact (RecoverDelete_accepts env s' r' _ user Hv' Hfind Hdel).
Qed.

Lemma marker_survives_signup_witness :
  succeeds (RecoverDelete (Fixture.env 5 None) Fixture.store
              (Fixture.request "" {[ "email" := "alice@x.com" ]} ∅ ∅))
           (after (Signup (Fixture.env 5 None) Fixture.store
                     (Fixture.request "alice@x.com" ∅ ∅ ∅))
                  (Fixture.world {[ "alice@x.com" := IString "verified" ]})).
Proof.
  refine (proj2 (marker_survives_signup (Fixture.env 5 None) Fixture.store Fixture.store
                   (Fixture.request "alice@x.com" ∅ ∅ ∅)
                   (Fixture.request "" {[ "email" := "alice@x.com" ]} ∅ ∅)
                   (Fixture.world {[ "alice@x.com" := IString "verified" ]})
                   Fixture.alice _ _ _));
    reflexivity.
Defined.

(** X19.  A code is not bound to the purpose it was requested for.  The
    code that [CreateDeleteCode] generated, once verified, opens the gate of
    Signup, and the code that [CreateCode] generated, once verified, opens
    the gate of RecoverDelete: the requests succeed when their own checks
    against the store pass. *)
Theorem code_purpose_is_not_checked (env : Env) (s s' : Store) (r1 r2 r3 : Request)
        (w : World) (signup : AuthEmail) :
  json_DecodeAuthEmail env (Body r1) = Ok signup ->
  submits r2 (Email signup) (fresh_code env) ->
  (forall user userSignup err createdUser,
      Users_FindByEmail s (Email signup) = Ok user ->
      json_DecodeUserSignup env (Body r3) = Ok (Some userSignup) ->
      SignupEmail userSignup = Email signup ->
      app_PayloadValidatorSignup env userSignup = ValidationPassed ->
      Users_FindByEmail s' (DTOEmail (model_ConvertUserDTO env userSignup)) = Err err ->
      app_CreateUser env s' (model_ConvertUserDTO env userSignup) = Ok createdUser ->
      creates_user (Signup env s' r3)
                   (after (VerifyCode env r2) (after (CreateDeleteCode env s r1) w)))
  /\ (forall err user,
         Users_FindByEmail s (Email signup) = Err err ->
         mux_Var r3 "email" = Email signup ->
         Users_FindByEmail s' (Email signup) = Ok user ->
         Users_Delete s' (UserID user) (UserSchema user) = None ->
         succeeds (RecoverDelete env s' r3)
                  (after (VerifyCode env r2) (after (CreateCode env s r1) w))).
Proof.
  intros Hdec Hsub. split.
  - intros user u err cu Hfind Hdec3 Hemail Hval Hfind3 Hcreate.
    apply (Signup_accepts env s' r3 _ u err cu); try assumption.
    rewrite Hemail. apply code_then_verify; [|exact Hsub].
    unfold after. rewrite (CreateDeleteCode_run env s r1 w signup user Hdec Hfind).
    cbn [snd cache]. apply lookup_insert_eq.
  - intros err user Hfind Hemail Hfind3 Hdel.
    apply (RecoverDelete_accepts env s' r3 _ user); rewrite ?Hemail; try assumption.
    apply code_then_verify; [|exact Hsub].
    unfold after. rewrite (CreateCode_run env s r1 w signup err Hdec Hfind).
    cbn [snd cache]. apply lookup_insert_eq.
Qed.

Lemma code_purpose_is_not_checked_witness :
  creates_user (Signup (Fixture.env 23456 None) Faults.nobody
                  (Fixture.request "alice@x.com" ∅ ∅ ∅))
               (after (VerifyCode (Fixture.env 23456 None)
                         (Fixture.request "" {[ "code" := "123456" ]}
                                          {[ "email" := "alice@x.com" ]} ∅))
                      (after (CreateDeleteCode (Fixture.env 23456 None) Fixture.store
                                (Fixture.request "alice@x.com" ∅ ∅ ∅))
                             (Fixture.world ∅)))
  /\ succeeds (RecoverDelete (Fixture.env 23456 None) Faults.everybody
                 (Fixture.request "" {[ "email" := "bob@x.com" ]} ∅ ∅))
              (after (VerifyCode (Fixture.env 23456 None)
                        (Fixture.request "" {[ "code" := "123456" ]}
                                         {[ "email" := "bob@x.com" ]} ∅))
                     (after (CreateCode (Fixture.env 23456 None) Fixture.store
                               (Fixture.request "bob@x.com" ∅ ∅ ∅))
                            (Fixture.world ∅))).
Proof.
  split.
  - refine (proj1 (code_purpose_is_not_checked (Fixture.env 23456 None)
              Fixture.store Faults.nobody
              (Fixture.request "alice@x.com" ∅ ∅ ∅)
              (Fixture.request "" {[ "code" := "123456" ]} {[ "email" := "alice@x.com" ]} ∅)
              (Fixture.request "alice@x.com" ∅ ∅ ∅) (Fixture.world ∅)
              {| Email := "alice@x.com" |} eq_refl _)
              Fixture.alice
              {| SignupName := "Bob"; SignupEmail := "alice@x.com";
                 SignupMasterPassword := "secret" |}
              (ErrOther "record not found")
              {| UserID := 8; UserUUID := "u-8"; UserName := "Bob";
                 UserEmail := "alice@x.com"; UserSchema := "user8" |}
              eq_refl eq_refl eq_refl eq_refl eq_refl eq_refl).
    split; reflexivity.
  - refine (proj2 (code_purpose_is_not_checked (Fixture.env 23456 None)
              Fixture.store Faults.everybody
              (Fixture.request "bob@x.com" ∅ ∅ ∅)
              (Fixture.request "" {[ "code" := "123456" ]} {[ "email" := "bob@x.com" ]} ∅)
              (Fixture.request "" {[ "email" := "bob@x.com" ]} ∅ ∅) (Fixture.world ∅)
              {| Email := "bob@x.com" |} eq_refl _)
              (ErrOther "record not found") (Faults.account "bob@x.com")
              eq_refl _ eq_refl eq_refl).
    + split; reflexivity.
    + reflexivity.
Defined.

(** ** The Authorization header, further *)

Section SplitInTwo.

Variable c : ascii.

Lemma index_byte_none (s : string) :
  count_byte c s = 0%nat -> String.index 0 (String c "") s = None.
Proof.
  intros Hcount. pose proof (index_byte c s) as Hidx.
  destruct (String.index 0 (String c "") s) as [m|]; [|reflexivity].
  cbv zeta in Hidx. lia.
Qed.

Lemma genSplit_no_byte (fuel : nat) (s : string) :
  count_byte c s = 0%nat -> genSplit fuel s (String c "") = [s].
Proof.
  intros Hcount. destruct fuel as [|fuel]; [reflexivity|].
  cbn [genSplit]. rewrite index_byte_none by exact Hcount. reflexivity.
Qed.

Lemma index_byte_first (a b : string) :
  count_byte c a = 0%nat ->
  String.index 0 (String c "") (a +:+ String c b) = Some (String.length a).
Proof.
  induction a as [|x a IH]; intros Hcount.
  - change ("" +:+ String c b) with (String c b).
    cbn [String.index String.prefix String.length].
    destruct (ascii_dec c c) as [_|Hne]; [|contradiction].
    rewrite prefix_empty. reflexivity.
  - cbn [count_byte] in Hcount.
    destruct (Ascii.eqb_spec c x) as [Heq|Hne]; [lia|].
    change (String x a +:+ String c b) with (String x (a +:+ String c b)).
    cbn [String.index String.prefix String.length].
    destruct (ascii_dec c x) as [Heq|_]; [contradiction|].
    rewrite IH by lia. reflexivity.
Qed.

Lemma substring_head (a rest : string) :
  substring 0 (String.length a) (a +:+ rest) = a.
Proof.
  induction a as [|x a IH]; [destruct rest; reflexivity|].
  change (String x a +:+ rest) with (String x (a +:+ rest)).
  cbn [String.length substring]. rewrite IH. reflexivity.
Qed.

Lemma substring_tail (a rest : string) :
  substring (String.length a) (String.length rest) (a +:+ rest) = rest.
Proof.
  induction a as [|x a IH]; [apply substring_whole|].
  change (String x a +:+ rest) with (String x (a +:+ rest)).
  cbn [String.length substring]. exact IH.
Qed.

Lemma length_append (a b : string) :
  String.length (a +:+ b) = (String.length a + String.length b)%nat.
Proof.
  induction a as [|x a IH]; [reflexivity|].
  change (String x a +:+ b) with (String x (a +:+ b)).
  cbn [String.length]. rewrite IH. reflexivity.
Qed.

(** Two parts without the separator, joined by it, split back into the two. *)
Lemma Split_two (a b : string) :
  count_byte c a = 0%nat -> count_byte c b = 0%nat ->
  Split (a +:+ String c b) (String c "") = [a; b].
Proof.
  intros Ha Hb. unfold Split. cbn [String.eqb].
  rewrite length_append. cbn [String.length].
  replace (String.length a + S (String.length b))%nat
    with (S (String.length a + String.length b)) by lia.
  cbn [genSplit]. rewrite index_byte_first by exact Ha.
  rewrite substring_head. cbn [String.length].
  rewrite length_append. cbn [String.length].
  replace (String.length a + S (String.length b) - (String.length a + 1))%nat
    with (String.length b) by lia.
  change (a +:+ String c b) with (a +:+ (String c "" +:+ b)).
  replace (String.length a + 1)%nat with (String.length (a +:+ String c "")).
  2: { rewrite length_append. reflexivity. }
  replace (a +:+ (String c "" +:+ b)) with ((a +:+ String c "") +:+ b).
  2: { clear. induction a as [|x a IH]; [reflexivity|].
       change (String x a +:+ String c "" +:+ b)
         with (String x (a +:+ String c "" +:+ b)).
       change ((String x a +:+ String c "") +:+ b)
         with (String x ((a +:+ String c "") +:+ b)).
       rewrite IH. reflexivity. }
  rewrite substring_tail. rewrite genSplit_no_byte by exact Hb. reflexivity.
Qed.

End SplitInTwo.

(** X20.  CheckToken does not look at the word in front of the token.  Two
    headers made of one space-free word, one space and the same space-free
    token are treated alike whatever the words are: the handler runs on the
    token alone. *)
Theorem CheckToken_scheme_is_not_checked (env : Env) (s : Store) (r r' : Request)
        (w : World) (scheme scheme' tokenStr : string) :
  count_byte " " scheme = 0%nat ->
  count_byte " " scheme' = 0%nat ->
  count_byte " " tokenStr = 0%nat ->
  Header_Get r "Authorization" = scheme +:+ " " +:+ tokenStr ->
  Header_Get r' "Authorization" = scheme' +:+ " " +:+ tokenStr ->
  CheckToken env s r = CheckToken_from env s tokenStr
  /\ serve (CheckToken env s r) w = serve (CheckToken env s r') w.
Proof.
  intros Hs Hs' Ht Hr Hr'.
  assert (Hcut : forall word,
             count_byte " " word = 0%nat ->
             bearer_tokenStr (word +:+ " " +:+ tokenStr) = tokenStr).
  { intros word Hword. unfold bearer_tokenStr.
    change (word +:+ " " +:+ tokenStr) with (word +:+ String " " tokenStr).
    rewrite (Split_two " " word tokenStr Hword Ht). reflexivity. }
  unfold CheckToken. rewrite Hr, Hr', (Hcut scheme Hs), (Hcut scheme' Hs').
  split; reflexivity.
Qed.

Lemma CheckToken_scheme_is_not_checked_witness :
  serve (CheckToken (Fixture.env 5 None) Fixture.store (Fixture.bearer_request "Bearer good"))
        (Fixture.world ∅)
  = serve (CheckToken (Fixture.env 5 None) Fixture.store (Fixture.bearer_request "Basic good"))
          (Fixture.world ∅).
Proof.
  refine (proj2 (CheckToken_scheme_is_not_checked (Fixture.env 5 None) Fixture.store
                   (Fixture.bearer_request "Bearer good")
                   (Fixture.bearer_request "Basic good") (Fixture.world ∅)
                   "Bearer" "Basic" "good" _ _ _ _ _));
    reflexivity.
Defined.

(** X21.  CheckToken answers 200 exactly when the header splits into two
    parts, the second part is not empty and passes [app.TokenValid], the
    claims of the token are a map with a string under [user_uuid], and the
    store finds a user under that UUID.  The payload is then the table view
    of that user.  The [Valid] flag of the token is not consulted. *)
Theorem CheckToken_succeeds_iff (env : Env) (s : Store) (r : Request) (w : World) :
  (succeeds (CheckToken env s r) w
   <-> exists scheme tokenStr token claims uuid user,
        Split (Header_Get r "Authorization") " " = [scheme; tokenStr]
        /\ tokenStr <> ""
        /\ app_TokenValid env tokenStr = Ok token
        /\ TokenClaims token = MapClaims claims
        /\ claims !! "user_uuid" = Some (IString uuid)
        /\ Users_FindByUUID s uuid = Ok user)
  /\ (forall scheme tokenStr token claims uuid user,
         Split (Header_Get r "Authorization") " " = [scheme; tokenStr] ->
         tokenStr <> "" ->
         app_TokenValid env tokenStr = Ok token ->
         TokenClaims token = MapClaims claims ->
         claims !! "user_uuid" = Some (IString uuid) ->
         Users_FindByUUID s uuid = Ok user ->
         serve (CheckToken env s r) w
         = (Responded (RespondWithJSON StatusOK
                         (PUserDTOTable (model_ToUserDTOTable env user))),
            emit_to (EvUsersFindByUUID uuid) w)).
Proof.
  assert (Hrun : forall scheme tokenStr token claims uuid user,
             Split (Header_Get r "Authorization") " " = [scheme; tokenStr] ->
             tokenStr <> "" ->
             app_TokenValid env tokenStr = Ok token ->
             TokenClaims token = MapClaims claims ->
             claims !! "user_uuid" = Some (IString uuid) ->
             Users_FindByUUID s uuid = Ok user ->
             serve (CheckToken env s r) w
             = (Responded (RespondWithJSON StatusOK
                             (PUserDTOTable (model_ToUserDTOTable env user))),
                emit_to (EvUsersFindByUUID uuid) w)).
  { intros scheme tokenStr token claims uuid user Hsplit Hne Hvalid Hclaims Hget Hfind.
    unfold CheckToken, bearer_tokenStr. rewrite Hsplit. cbn [length Nat.eqb nth].
    unfold CheckToken_from.
    destruct (String.eqb_spec tokenStr "") as [Heq|_]; [contradiction|].
    rewrite Hvalid, Hclaims, Hget. cbn [from_option id as_string]. run.
    rewrite Hfind. reflexivity. }
  split; [split|exact Hrun].
  - unfold succeeds, reply_of, CheckToken, bearer_tokenStr.
    destruct (Split (Header_Get r "Authorization") " ")
      as [|scheme [|tokenStr [|third rest]]] eqn:Hsplit;
      cbn [length Nat.eqb nth]; unfold CheckToken_from;
      try (rewrite String.eqb_refl; refute_status).
    destruct (String.eqb_spec tokenStr "") as [_|Hne]; [refute_status|].
    destruct (app_TokenValid env tokenStr) as [token|e] eqn:Hvalid; [|refute_status].
    destruct (TokenClaims token) as [claims|c] eqn:Hclaims; [|refute_status].
    destruct (claims !! "user_uuid") as [[uuid| | |]|] eqn:Hget;
      cbn [from_option id as_string]; try refute_status.
    run. destruct (Users_FindByUUID s uuid) as [user|e] eqn:Hfind; [|refute_status].
    intros _. exists scheme, tokenStr, token, claims, uuid, user.
    repeat split; assumption || reflexivity.
  - intros (scheme & tokenStr & token & claims & uuid & user
            & Hsplit & Hne & Hvalid & Hclaims & Hget & Hfind).
    unfold succeeds, reply_of.
    rewrite (Hrun scheme tokenStr token claims uuid user
               Hsplit Hne Hvalid Hclaims Hget Hfind).
    reflexivity.
Qed.

Lemma CheckToken_succeeds_iff_witness :
  succeeds (CheckToken (Fixture.env 5 None) Fixture.store
              (Fixture.bearer_request "Bearer good")) (Fixture.world ∅)
  /\ serve (CheckToken (Fixture.env 5 None) Fixture.store
              (Fixture.bearer_request "Bearer good")) (Fixture.world ∅)
     = (Responded (RespondWithJSON StatusOK
                     (PUserDTOTable {| TableName := "Alice";
                                       TableEmail := "alice@x.com" |})),
        emit_to (EvUsersFindByUUID "u-7") (Fixture.world ∅)).
Proof.
  split.
  - apply (proj1 (CheckToken_succeeds_iff (Fixture.env 5 None) Fixture.store
                    (Fixture.bearer_request "Bearer good") (Fixture.world ∅))).
    exists "Bearer", "good",
           {| Valid := true;
              TokenClaims := MapClaims {[ "user_uuid" := IString "u-7" ]} |},
           {[ "user_uuid" := IString "u-7" ]}, "u-7", Fixture.alice.
    repeat split; try reflexivity. discriminate.
  - refine (proj2 (CheckToken_succeeds_iff (Fixture.env 5 None) Fixture.store
                    (Fixture.bearer_request "Bearer good") (Fixture.world ∅))
             "Bearer" "good"
             {| Valid := true;
                TokenClaims := MapClaims {[ "user_uuid" := IString "u-7" ]} |}
             {[ "user_uuid" := IString "u-7" ]} "u-7" Fixture.alice
             _ _ _ _ _ _); try reflexivity. discriminate.
Defined.

(** ** Code requests, further *)

(** X22.  [CreateCode] answers 200 exactly when the body decodes, the store
    has no account for the email and the mailer accepts the mail;
    [CreateDeleteCode] exactly when the body decodes, the store has an
    account and the mailer accepts the mail.  So for one request and one
    store at most one of the two succeeds. *)
Theorem code_request_succeeds_iff (env : Env) (s : Store) (r : Request) (w : World) :
  (succeeds (CreateCode env s r) w
   <-> exists signup err,
        json_DecodeAuthEmail env (Body r) = Ok signup
        /\ Users_FindByEmail s (Email signup) = Err err
        /\ mail_answer env (code_mail env (Email signup)) = None)
  /\ (succeeds (CreateDeleteCode env s r) w
      <-> exists signup user,
           json_DecodeAuthEmail env (Body r) = Ok signup
           /\ Users_FindByEmail s (Email signup) = Ok user
           /\ mail_answer env (delete_code_mail env (Email signup)) = None)
  /\ ~ (succeeds (CreateCode env s r) w /\ succeeds (CreateDeleteCode env s r) w).
Proof.
  assert (Hcreate : succeeds (CreateCode env s r) w
                    <-> exists signup err,
                         json_DecodeAuthEmail env (Body r) = Ok signup
                         /\ Users_FindByEmail s (Email signup) = Err err
                         /\ mail_answer env (code_mail env (Email signup)) = None).
  { split.
    - unfold succeeds, reply_of.
      destruct (json_DecodeAuthEmail env (Body r)) as [signup|e] eqn:Hdec.
      + destruct (Users_FindByEmail s (Email signup)) as [user|err] eqn:Hfind.
        * unfold CreateCode. rewrite Hdec. run. rewrite Hfind. refute_status.
        * rewrite (CreateCode_run env s r w signup err Hdec Hfind). cbn [fst].
          destruct (mail_answer env (code_mail env (Email signup))) eqn:Hmail;
            [refute_status|].
          intros _. exists signup, err. repeat split; assumption.
      + unfold CreateCode. rewrite Hdec. refute_status.
    - intros (signup & err & Hdec & Hfind & Hmail). unfold succeeds, reply_of.
      rewrite (CreateCode_run env s r w signup err Hdec Hfind), Hmail. reflexivity. }
  assert (Hdelete : succeeds (CreateDeleteCode env s r) w
                    <-> exists signup user,
                         json_DecodeAuthEmail env (Body r) = Ok signup
                         /\ Users_FindByEmail s (Email signup) = Ok user
                         /\ mail_answer env (delete_code_mail env (Email signup)) = None).
  { split.
    - unfold succeeds, reply_of.
      destruct (json_DecodeAuthEmail env (Body r)) as [signup|e] eqn:Hdec.
      + destruct (Users_FindByEmail s (Email signup)) as [user|err] eqn:Hfind.
        * rewrite (CreateDeleteCode_run env s r w signup user Hdec Hfind). cbn [fst].
          destruct (mail_answer env (delete_code_mail env (Email signup))) eqn:Hmail;
            [refute_status|].
          intros _. exists signup, user. repeat split; assumption.
        * unfold CreateDeleteCode. rewrite Hdec. run. rewrite Hfind. refute_status.
      + unfold CreateDeleteCode. rewrite Hdec. refute_status.
    - intros (signup & user & Hdec & Hfind & Hmail). unfold succeeds, reply_of.
      rewrite (CreateDeleteCode_run env s r w signup user Hdec Hfind), Hmail.
      reflexivity. }
  split; [exact Hcreate|]. split; [exact Hdelete|].
  intros [H1 H2]. apply Hcreate in H1. apply Hdelete in H2.
  destruct H1 as (signup & err & Hdec & Hfind & _).
  destruct H2 as (signup' & user & Hdec' & Hfind' & _).
  rewrite Hdec in Hdec'. injection Hdec' as <-. congruence.
Qed.

Lemma code_request_succeeds_iff_witness :
  succeeds (CreateCode (Fixture.env 5 None) Fixture.store
              (Fixture.request "bob@x.com" ∅ ∅ ∅)) (Fixture.world ∅)
  /\ succeeds (CreateDeleteCode (Fixture.env 5 None) Fixture.store
                 (Fixture.request "alice@x.com" ∅ ∅ ∅)) (Fixture.world ∅).
Proof.
  split.
  - apply (proj1 (code_request_succeeds_iff (Fixture.env 5 None) Fixture.store
                    (Fixture.request "bob@x.com" ∅ ∅ ∅) (Fixture.world ∅))).
    exists {| Email := "bob@x.com" |}, (ErrOther "record not found").
    repeat split; reflexivity.
  - apply (proj1 (proj2 (code_request_succeeds_iff (Fixture.env 5 None) Fixture.store
                    (Fixture.request "alice@x.com" ∅ ∅ ∅) (Fixture.world ∅)))).
    exists {| Email := "alice@x.com" |}, Fixture.alice.
    repeat split; reflexivity.
Defined.

(** X23.  Only the latest code counts.  When two code requests for the same
    email get past the account check one after the other, the cache holds
    the code of the second: a VerifyCode request with the first code is
    answered with the mismatch error (when the two codes differ), and one
    with the second code succeeds. *)
Theorem latest_code_wins (env1 env2 env : Env) (s1 s2 : Store) (r1 r2 r3 : Request)
        (w w1 w2 : World) (email : string) :
  issues_code env1 s1 r1 w email w1 ->
  issues_code env2 s2 r2 w1 email w2 ->
  fresh_code env1 <> fresh_code env2 ->
  submits r3 email (fresh_code env1) ->
  cache w2 !! email = Some (IString (fresh_code env2))
  /\ serve (VerifyCode env r3) w2
     = (Responded (RespondWithError StatusBadRequest "Code doesn't match!"), w2)
  /\ (forall r4, submits r4 email (fresh_code env2) -> succeeds (VerifyCode env r4) w2).
Proof.
  intros Hfirst Hsecond Hdiff [Hemail Hcode].
  assert (Hget : cache w2 !! email = Some (IString (fresh_code env2))).
  { rewrite (issues_code_cache _ _ _ _ _ _ Hsecond). apply lookup_insert_eq. }
  split; [exact Hget|]. split.
  - unfold VerifyCode. run. rewrite Hemail, Hget, Hcode. cbn [as_string].
    destruct (String.eqb_spec (fresh_code env1) (fresh_code env2)) as [Heq|_];
      [contradiction|reflexivity].
  - intros r4 [Hemail4 Hcode4]. unfold succeeds.
    rewrite VerifyCode_accepts; [reflexivity|].
    rewrite Hemail4, Hcode4. exact Hget.
Qed.

Lemma latest_code_wins_witness :
  serve (VerifyCode (Fixture.env 5 None)
           (Fixture.request "" {[ "code" := "100005" ]} {[ "email" := "bob@x.com" ]} ∅))
        (after (CreateCode (Fixture.env 23456 None) Fixture.store
                  (Fixture.request "bob@x.com" ∅ ∅ ∅))
               (after (CreateCode (Fixture.env 5 None) Fixture.store
                         (Fixture.request "bob@x.com" ∅ ∅ ∅))
                      (Fixture.world ∅)))
  = (Responded (RespondWithError StatusBadRequest "Code doesn't match!"),
     after (CreateCode (Fixture.env 23456 None) Fixture.store
              (Fixture.request "bob@x.com" ∅ ∅ ∅))
           (after (CreateCode (Fixture.env 5 None) Fixture.store
                     (Fixture.request "bob@x.com" ∅ ∅ ∅))
                  (Fixture.world ∅))).
Proof.
  refine (proj1 (proj2 (latest_code_wins (Fixture.env 5 None) (Fixture.env 23456 None)
            (Fixture.env 5 None) Fixture.store Fixture.store
            (Fixture.request "bob@x.com" ∅ ∅ ∅) (Fixture.request "bob@x.com" ∅ ∅ ∅)
            (Fixture.request "" {[ "code" := "100005" ]} {[ "email" := "bob@x.com" ]} ∅)
            (Fixture.world ∅) _ _ "bob@x.com" _ _ _ _))).
  - exists {| Email := "bob@x.com" |}. split; [reflexivity|]. split; [reflexivity|].
    left. split; [exists (ErrOther "record not found"); reflexivity|reflexivity].
  - exists {| Email := "bob@x.com" |}. split; [reflexivity|]. split; [reflexivity|].
    left. split; [exists (ErrOther "record not found"); reflexivity|reflexivity].
  - vm_compute. discriminate.
  - split; reflexivity.
Defined.
